(** * NasmaMetrics dashboard: a shallow embedding of static/js/dashboard.js

    The browser script is modelled function by function.  JavaScript values
    are given the small types the script really manipulates:

    - numbers are [number]: NaN, the two infinities, or a finite value kept
      as an exact rational (IEEE rounding of finite values is not modelled);
    - strings are [string] (byte strings; the script only compares and
      concatenates ASCII text);
    - [Date] objects are their time value, an integer count of milliseconds
      since the epoch, with the local zone given by a fixed offset;
    - the DOM, the network and the chart library are explicit state. *)

From Stdlib Require Import ZArith QArith Qround Qabs Lqa List String Ascii Bool Lia.
From Stdlib Require Import DecimalString.
From Stdlib Require DecimalFacts DecimalPos.
Import ListNotations.

Open Scope string_scope.
Open Scope Z_scope.

(** ** JavaScript numbers and values *)

Module Js.

Inductive number : Type :=
| NaN
| PosInf
| NegInf
| Fin (q : Q).

(** The values that reach the helpers of the script: a missing property
    ([undefined]), JSON [null], a number or a string. *)
Inductive value : Type :=
| VUndefined
| VNull
| VNumber (n : number)
| VString (s : string).

(** Numbers produced by [Math.round], [Math.floor] and [%] on them are
    integral (or NaN or infinite); [integral] keeps that. *)
Inductive integral : Type :=
| INaN
| IPosInf
| INegInf
| IInt (z : Z).

Definition isNaN (n : number) : bool :=
  match n with NaN => true | _ => false end.

(** [n <= 0] on numbers; every comparison with NaN is false. *)
Definition le_zero (n : number) : bool :=
  match n with
  | NaN => false
  | PosInf => false
  | NegInf => true
  | Fin q => Qle_bool q 0
  end.

Definition isFinite (n : number) : bool :=
  match n with Fin _ => true | _ => false end.

(** [Math.round]: the nearest integer, ties toward +infinity. *)
Definition Math_round (n : number) : integral :=
  match n with
  | NaN => INaN
  | PosInf => IPosInf
  | NegInf => INegInf
  | Fin q => IInt (Qfloor (q + (1 # 2)))
  end.

(** [Math.floor(x / d)] for a positive integer constant [d]. *)
Definition floor_div (x : integral) (d : Z) : integral :=
  match x with
  | IInt z => IInt (z / d)
  | other => other
  end.

(** [x % d] for a positive integer constant [d]: the remainder has the sign
    of the dividend, and an infinite dividend gives NaN. *)
Definition rem (x : integral) (d : Z) : integral :=
  match x with
  | IInt z => IInt (Z.rem z d)
  | _ => INaN
  end.

(** Truthiness of an integral number: 0 and NaN are falsy. *)
Definition truthy (x : integral) : bool :=
  match x with
  | INaN => false
  | IInt z => negb (z =? 0)
  | _ => true
  end.

Definition string_of_Z (z : Z) : string :=
  NilZero.string_of_int (Z.to_int z).

(** [String(x)] as a template literal computes it (integers below 10^21
    print as plain decimal digits). *)
Definition ToString (x : integral) : string :=
  match x with
  | INaN => "NaN"
  | IPosInf => "Infinity"
  | INegInf => "-Infinity"
  | IInt z => string_of_Z z
  end.

(** [array.push(x)] *)
Definition push {A : Type} (array : list A) (x : A) : list A :=
  (array ++ [x])%list.

(** [parts.join(sep)] *)
Fixpoint join (sep : string) (parts : list string) : string :=
  match parts with
  | [] => ""
  | [p] => p
  | p :: rest => p ++ sep ++ join sep rest
  end.

End Js.

Import Js.

(** ** Formatting helpers *)

(** [formatDurationDisplay(seconds)], dashboard.js lines 158-178. *)
Definition formatDurationDisplay (seconds : value) : string :=
  match seconds with
  | VNumber n =>
      if isNaN n || le_zero n then "-"
      else
        let rounded := Math_round n in
        let hours := floor_div rounded 3600 in
        let minutes := floor_div (rem rounded 3600) 60 in
        let secs := rem rounded 60 in
        let parts := [] in
        let parts :=
          if truthy hours then push parts (ToString hours ++ "h") else parts in
        let parts :=
          if truthy minutes then push parts (ToString minutes ++ "m")
          else parts in
        let parts :=
          if negb (truthy hours) && truthy secs
          then push parts (ToString secs ++ "s") else parts in
        match join " " parts with
        | "" => ToString rounded ++ "s"
        | text => text
        end
  | _ => "-"
  end.


(** ** Dates: ECMAScript time values

    A [Date] is its time value [t] (milliseconds since 1970-01-01T00:00Z).
    The functions below are the abstract operations of the ECMAScript
    specification (Day, TimeWithinDay, DayFromYear, YearFromTime, ...).
    The local zone is a fixed offset [tza] in milliseconds, local = UTC +
    [tza] (negative west of Greenwich); daylight saving is not modelled. *)

Module JsDate.

Definition msPerDay : Z := 86400000.
Definition msPerHour : Z := 3600000.
Definition msPerMinute : Z := 60000.
Definition msPerSecond : Z := 1000.

Definition Day (t : Z) : Z := t / msPerDay.
Definition TimeWithinDay (t : Z) : Z := t mod msPerDay.

Definition isLeapYear (y : Z) : bool :=
  ((y mod 4 =? 0) && negb (y mod 100 =? 0)) || (y mod 400 =? 0).

Definition DaysInYear (y : Z) : Z := if isLeapYear y then 366 else 365.

Definition DayFromYear (y : Z) : Z :=
  365 * (y - 1970) + (y - 1969) / 4 - (y - 1901) / 100 + (y - 1601) / 400.

(** The year of a day number: an estimate from the mean year length,
    moved by one where the estimate is off ([YearFromDay_spec] below shows
    that this is the largest [y] with [DayFromYear y <= day]). *)
Definition YearFromDay (day : Z) : Z :=
  let y := 1970 + (400 * day) / 146097 in
  if day <? DayFromYear y then y - 1
  else if DayFromYear (y + 1) <=? day then y + 1
  else y.

Definition YearFromTime (t : Z) : Z := YearFromDay (Day t).

Definition DayWithinYear (t : Z) : Z := Day t - DayFromYear (YearFromTime t).

Definition InLeapYear (t : Z) : Z :=
  if isLeapYear (YearFromTime t) then 1 else 0.

(** Months are numbered from 0 (January). *)
Definition MonthFromTime (t : Z) : Z :=
  let d := DayWithinYear t in
  let l := InLeapYear t in
  if d <? 31 then 0
  else if d <? 59 + l then 1
  else if d <? 90 + l then 2
  else if d <? 120 + l then 3
  else if d <? 151 + l then 4
  else if d <? 181 + l then 5
  else if d <? 212 + l then 6
  else if d <? 243 + l then 7
  else if d <? 273 + l then 8
  else if d <? 304 + l then 9
  else if d <? 334 + l then 10
  else 11.

(** Days of the year before the first of month [m] (0-based). *)
Definition DaysBeforeMonth (m : Z) (leap : Z) : Z :=
  match m with
  | 0 => 0
  | 1 => 31
  | 2 => 59 + leap
  | 3 => 90 + leap
  | 4 => 120 + leap
  | 5 => 151 + leap
  | 6 => 181 + leap
  | 7 => 212 + leap
  | 8 => 243 + leap
  | 9 => 273 + leap
  | 10 => 304 + leap
  | _ => 334 + leap
  end.

(** The length of month [m] (0-based). *)
Definition DaysInMonth (m : Z) (leap : Z) : Z :=
  match m with
  | 1 => 28 + leap
  | 3 | 5 | 8 | 10 => 30
  | _ => 31
  end.

Definition DateFromTime (t : Z) : Z :=
  DayWithinYear t - DaysBeforeMonth (MonthFromTime t) (InLeapYear t) + 1.

(** 0 is Sunday. *)
Definition WeekDay (t : Z) : Z := (Day t + 4) mod 7.

Definition HourFromTime (t : Z) : Z := (t / msPerHour) mod 24.
Definition MinFromTime (t : Z) : Z := (t / msPerMinute) mod 60.
Definition SecFromTime (t : Z) : Z := (t / msPerSecond) mod 60.
Definition msFromTime (t : Z) : Z := t mod msPerSecond.

Definition MakeTime (hour min sec ms : Z) : Z :=
  hour * msPerHour + min * msPerMinute + sec * msPerSecond + ms.

(** The day number of the [date]-th day of month [month] (0-based, any
    integer) of [year]; [date] may run outside the month. *)
Definition MakeDay (year month date : Z) : Z :=
  let ym := year + month / 12 in
  let mn := month mod 12 in
  DayFromYear ym + DaysBeforeMonth mn (if isLeapYear ym then 1 else 0)
  + date - 1.

Definition MakeDate (day time : Z) : Z := day * msPerDay + time.

Definition LocalTime (tza t : Z) : Z := t + tza.
Definition UTC (tza t : Z) : Z := t - tza.

(** [Date.UTC(year, month, date)]: a year from 0 to 99 means 1900 + year. *)
Definition Date_UTC (year month date : Z) : Z :=
  let yr := if (0 <=? year) && (year <=? 99) then 1900 + year else year in
  MakeDate (MakeDay yr month date) (MakeTime 0 0 0 0).

Definition getUTCDay (t : Z) : Z := WeekDay t.
Definition getUTCDate (t : Z) : Z := DateFromTime t.

(** [date.setUTCDate(dt)] keeps the year, the month and the time of day. *)
Definition setUTCDate (t dt : Z) : Z :=
  MakeDate (MakeDay (YearFromTime t) (MonthFromTime t) dt) (TimeWithinDay t).

(** [date.setHours(h, m, s, ms)] works on the local time. *)
Definition setHours (tza t hour min sec ms : Z) : Z :=
  let local := LocalTime tza t in
  UTC tza (MakeDate (Day local) (MakeTime hour min sec ms)).

Definition digit_char (d : Z) : ascii := ascii_of_N (48 + Z.to_N d).

(** The last [width] decimal digits of a non-negative number, zeros in
    front ([String(n).padStart(width, "0")] when [n] has that many digits
    at most). *)
Fixpoint pad_digits (width : nat) (n : Z) : string :=
  match width with
  | O => ""
  | S w => pad_digits w (n / 10) ++ String (digit_char (n mod 10)) ""
  end.

(** [date.toISOString()]: YYYY-MM-DDTHH:mm:ss.sssZ in UTC, with the
    expanded six-digit signed year outside 0..9999. *)
Definition toISOString (t : Z) : string :=
  let y := YearFromTime t in
  let year :=
    if (0 <=? y) && (y <=? 9999) then pad_digits 4 y
    else if y <? 0 then "-" ++ pad_digits 6 (- y)
    else "+" ++ pad_digits 6 y in
  year ++ "-" ++ pad_digits 2 (MonthFromTime t + 1) ++ "-" ++
  pad_digits 2 (DateFromTime t) ++ "T" ++
  pad_digits 2 (HourFromTime t) ++ ":" ++ pad_digits 2 (MinFromTime t) ++
  ":" ++ pad_digits 2 (SecFromTime t) ++ "." ++ pad_digits 3 (msFromTime t)
  ++ "Z".

Definition month_short (m : Z) : string :=
  match m with
  | 0 => "Jan" | 1 => "Feb" | 2 => "Mar" | 3 => "Apr" | 4 => "May"
  | 5 => "Jun" | 6 => "Jul" | 7 => "Aug" | 8 => "Sep" | 9 => "Oct"
  | 10 => "Nov" | _ => "Dec"
  end.

(** [date.toLocaleDateString(undefined, {month: "short", day: "numeric"})]:
    the month and the day of the local date.  The text is the locale's; it
    is rendered here as the en-US locale does ("Jan 1"). *)
Definition toLocaleDateString_month_day (tza t : Z) : string :=
  let local := LocalTime tza t in
  month_short (MonthFromTime local) ++ " " ++ string_of_Z (DateFromTime local).

End JsDate.

Import JsDate.


(** ** Week labels *)

(** The value of a decimal digit character. *)
Definition digit (c : ascii) : option Z :=
  let n := Z.of_N (N_of_ascii c) in
  if (48 <=? n) && (n <=? 57) then Some (n - 48) else None.

(** [Number(text)] for a run of decimal digits; [None] when a character is
    not a digit. *)
Fixpoint digits_value (acc : Z) (cs : list ascii) : option Z :=
  match cs with
  | [] => Some acc
  | c :: rest =>
      match digit c with
      | Some d => digits_value (10 * acc + d) rest
      | None => None
      end
  end.

(** [period.match(/^(\d{4})-W(\d{2})$/)], with the two groups converted
    by [Number]. *)
Definition match_week (period : string) : option (Z * Z) :=
  match list_ascii_of_string period with
  | [y1; y2; y3; y4; dash; w; w1; w2] =>
      if Ascii.eqb dash "-" && Ascii.eqb w "W" then
        match digits_value 0 [y1; y2; y3; y4], digits_value 0 [w1; w2] with
        | Some year, Some week => Some (year, week)
        | _, _ => None
        end
      else None
  | _ => None
  end.

(** The [startDate] of [formatWeekLabel] after its [setUTCDate]. *)
Definition weekStart (year week : Z) : Z :=
  let startDate := Date_UTC year 0 4 in
  let dayOfWeek :=
    if getUTCDay startDate =? 0 then 7 else getUTCDay startDate in
  setUTCDate startDate
    (getUTCDate startDate - dayOfWeek + 1 + (week - 1) * 7).

(** [formatWeekLabel(period)], dashboard.js lines 136-156, in a browser
    whose zone has the offset [tza]. *)
Definition formatWeekLabel (tza : Z) (period : value) : string :=
  match period with
  | VString "" => ""
  | VString p =>
      match match_week p with
      | None => p
      | Some (year, week) =>
          toLocaleDateString_month_day tza (weekStart year week)
      end
  | _ => ""
  end.

(** The ISO-8601 rule, in day numbers: week 1 of a year is the week,
    Monday to Sunday, that holds January 4th, and week [week] starts
    [week - 1] weeks after it.  (Day 0 was a Thursday, so [(day + 3) mod 7]
    counts the days since Monday.) *)
Definition isoWeekMonday (year week : Z) : Z :=
  let jan4 := MakeDay year 0 4 in
  jan4 - (jan4 + 3) mod 7 + 7 * (week - 1).

(** ** Filter state *)

Module Filter.

(** [dashboardFilters]: each bound is [null] or the text of a date input. *)
Record Filters : Type := {
  start : option string;
  end_ : option string
}.

(** What a handler does besides updating [dashboardFilters]. *)
Inductive effect : Type :=
| Alert (message : string)
| UpdateFilterLabel
| LoadDashboardData.

(** The part of the page the filter handlers read and write. *)
Record Page : Type := {
  startInput : string;
  endInput : string;
  dashboardFilters : Filters;
  effects : list effect
}.

(** [input.value || null] *)
Definition or_null (text : string) : option string :=
  match text with
  | "" => None
  | _ => Some text
  end.

(** Truthiness of a filter bound: [null] and the empty string are falsy. *)
Definition present (bound : option string) : bool :=
  match bound with
  | None | Some "" => false
  | Some _ => true
  end.

Definition text (bound : option string) : string :=
  match bound with
  | Some s => s
  | None => ""
  end.

(** [a > b] on strings: lexicographic on character codes. *)
Definition string_gt (a b : string) : bool :=
  match String.compare a b with
  | Gt => true
  | _ => false
  end.

(** The [value] of a date input holding the day [d] of month [m] (from 1)
    of year [y], for a year of four digits. *)
Definition date_text (y m d : Z) : string :=
  pad_digits 4 y ++ "-" ++ pad_digits 2 m ++ "-" ++ pad_digits 2 d.

Definition do_effects (p : Page) (es : list effect) : Page :=
  {| startInput := startInput p;
     endInput := endInput p;
     dashboardFilters := dashboardFilters p;
     effects := (effects p ++ es)%list |}.

(** [startValue > endValue] under the two truthiness tests before it. *)
Definition value_gt (a b : option string) : bool :=
  match a, b with
  | Some x, Some y => string_gt x y
  | _, _ => false
  end.

(** The click handler of [applyFiltersBtn], lines 58-71. *)
Definition applyClick (p : Page) : Page :=
  let startValue := or_null (startInput p) in
  let endValue := or_null (endInput p) in
  if present startValue && present endValue && value_gt startValue endValue
  then do_effects p [Alert "Start date must be before end date."]
  else
    {| startInput := startInput p;
       endInput := endInput p;
       dashboardFilters := {| start := startValue; end_ := endValue |};
       effects := (effects p ++ [UpdateFilterLabel; LoadDashboardData])%list |}.

(** The click handler of [clearFiltersBtn], lines 73-80. *)
Definition clearClick (p : Page) : Page :=
  {| startInput := "";
     endInput := "";
     dashboardFilters := {| start := None; end_ := None |};
     effects := (effects p ++ [UpdateFilterLabel; LoadDashboardData])%list |}.

(** *** The query string *)

Definition hex_digit (n : N) : ascii :=
  ascii_of_N (if (n <? 10)%N then 48 + n else 55 + n)%N.

Definition unreserved (c : ascii) : bool :=
  let n := N_of_ascii c in
  ((48 <=? n) && (n <=? 57) || (65 <=? n) && (n <=? 90) ||
   (97 <=? n) && (n <=? 122) ||
   (n =? 42) || (n =? 45) || (n =? 46) || (n =? 95))%N.

(** The application/x-www-form-urlencoded byte serializer that
    [URLSearchParams.toString] applies to names and values. *)
Fixpoint urlencode (text : string) : string :=
  match text with
  | EmptyString => ""
  | String c rest =>
      if unreserved c then String c (urlencode rest)
      else if (N_of_ascii c =? 32)%N then String "+" (urlencode rest)
      else
        String "%"
          (String (hex_digit (N_of_ascii c / 16))
             (String (hex_digit (N_of_ascii c mod 16)) (urlencode rest)))
  end.

(** [params.toString()] *)
Definition params_toString (params : list (string * string)) : string :=
  join "&" (map (fun kv => urlencode (fst kv) ++ "=" ++ urlencode (snd kv)) params).

(** The inverse of [urlencode], as the server applies it to a query. *)
Definition hex_value (c : ascii) : N :=
  let n := N_of_ascii c in
  (if n <? 58 then n - 48 else n - 55)%N.

Fixpoint urldecode (text : string) : string :=
  match text with
  | EmptyString => ""
  | String c rest =>
      if Ascii.eqb c "+" then String " " (urldecode rest)
      else if Ascii.eqb c "%" then
        match rest with
        | String h (String l rest') =>
            String (ascii_of_N (16 * hex_value h + hex_value l))
              (urldecode rest')
        | _ => String c (urldecode rest)
        end
      else String c (urldecode rest)
  end.

Section Query.

(** [new Date(text).getTime()]: [None] is an invalid date.  Which texts
    parse is the engine's business; [tza] is the local zone's offset. *)
Variable Date_parse : string -> option Z.
Variable tza : Z.

(** The time value [formatDateForQuery] serializes. *)
Definition normalizedTime (value : string) (endOfDay : bool) : option Z :=
  match Date_parse value with
  | None => None
  | Some date =>
      Some (if endOfDay then setHours tza date 23 59 59 999
            else setHours tza date 0 0 0 0)
  end.

(** [formatDateForQuery(value, endOfDay = false)], lines 95-109. *)
Definition formatDateForQuery (value : string) (endOfDay : bool) : string :=
  match value with
  | "" => value
  | _ =>
      match normalizedTime value endOfDay with
      | None => value
      | Some date => toISOString date
      end
  end.

(** The [URLSearchParams] that [buildFilterQuery] fills. *)
Definition buildFilterParams (f : Filters) : list (string * string) :=
  let params := [] in
  let params :=
    if present (start f)
    then push params ("start_date", formatDateForQuery (text (start f)) false)
    else params in
  let params :=
    if present (end_ f)
    then push params ("end_date", formatDateForQuery (text (end_ f)) true)
    else params in
  params.

(** [buildFilterQuery()], lines 83-93. *)
Definition buildFilterQuery (f : Filters) : string :=
  match params_toString (buildFilterParams f) with
  | "" => ""
  | query => "?" ++ query
  end.

End Query.

(** The date-only form YYYY-MM-DD of the ECMAScript date-time string
    format, which [<input type=date>] produces: it is read as midnight UTC
    of that day.  Text of any other shape is left unparsed here. *)
Definition Date_parse_date_only (text : string) : option Z :=
  match list_ascii_of_string text with
  | [y1; y2; y3; y4; dash1; m1; m2; dash2; d1; d2] =>
      if Ascii.eqb dash1 "-" && Ascii.eqb dash2 "-" then
        match digits_value 0 [y1; y2; y3; y4], digits_value 0 [m1; m2],
              digits_value 0 [d1; d2] with
        | Some y, Some m, Some d =>
            if (1 <=? m) && (m <=? 12) && (1 <=? d) &&
               (d <=? DaysInMonth (m - 1) (if isLeapYear y then 1 else 0))
            then Some (MakeDate (MakeDay y (m - 1) d) 0)
            else None
        | _, _, _ => None
        end
      else None
  | _ => None
  end.

End Filter.


(** ** The refresh cycle: [loadDashboardData], lines 264-367 *)

Module Refresh.

(** The endpoints, in the order the function fetches them. *)
Inductive Metric : Type :=
| ActiveUsers
| Requests
| Adoption
| AdoptionByDepartment
| LogHours
| RequestDurations
| RequestSuccessRates
| InactiveEmployees
| ActivitiesToday
| Satisfaction
| EaseComparison.

Definition Metric_eq_dec (a b : Metric) : {a = b} + {a <> b}.
Proof. decide equality. Defined.

Section Cycle.

(** The [data] field of an envelope. *)
Variable Data : Type.

(** What [await fetch(url)] followed by [await response.json()] gives:
    either of the two rejects (transport error, body that is not JSON), or
    the envelope [{success, data}] arrives. *)
Inductive Response : Type :=
| Rejected
| Envelope (success : bool) (data : Data).

(** The argument of a renderer: the envelope's data, or the empty array
    literal of an [else] branch. *)
Inductive Input : Type :=
| Payload (data : Data)
| EmptyArray.

(** What the cycle does to the page: a metric's renderer runs (for the
    adoption count and the satisfaction score the "renderer" is the inline
    assignment to the element; for the ease comparison it is the
    assignment to [easeData] and [renderEaseComparisonChart]), or the
    [catch] block logs the error. *)
Inductive Event : Type :=
| Render (m : Metric) (input : Input)
| ConsoleError.

(** A computation that appends to the page's event log and may throw. *)
Inductive Outcome (A : Type) : Type :=
| Done (a : A)
| Threw.
Arguments Done {A} a.
Arguments Threw {A}.

Definition M (A : Type) : Type := list Event -> Outcome A * list Event.

Definition ret {A : Type} (a : A) : M A := fun log => (Done a, log).

Definition bind {A B : Type} (c : M A) (k : A -> M B) : M B :=
  fun log =>
    match c log with
    | (Done a, log') => k a log'
    | (Threw, log') => (Threw, log')
    end.

Definition emit (e : Event) : M unit := fun log => (Done tt, push log e).

(** [try { body } catch (error) { handler }] *)
Definition try_catch (body handler : M unit) : M unit :=
  fun log =>
    match body log with
    | (Done a, log') => (Done a, log')
    | (Threw, log') => handler log'
    end.

Notation "x <- c ;; k" := (bind c (fun x => k))
  (at level 61, c at next level, right associativity).
Notation "c ;;; k" := (bind c (fun _ => k))
  (at level 61, right associativity).

(** What each endpoint answers during this cycle. *)
Variable network : Metric -> Response.

Definition fetch_json (m : Metric) : M (bool * Data) :=
  fun log =>
    match network m with
    | Rejected => (Threw, log)
    | Envelope success data => (Done (success, data), log)
    end.

Definition render (m : Metric) (input : Input) : M unit :=
  emit (Render m input).

Definition loadDashboardData : M unit :=
  try_catch
    ( (* Load active users *)
      activeUsersData <- fetch_json ActiveUsers ;;
      (if fst activeUsersData
       then render ActiveUsers (Payload (snd activeUsersData))
       else ret tt) ;;;
      (* Load requests *)
      requestsData <- fetch_json Requests ;;
      (if fst requestsData
       then render Requests (Payload (snd requestsData))
       else ret tt) ;;;
      (* Load adoption *)
      adoptionData <- fetch_json Adoption ;;
      (if fst adoptionData
       then render Adoption (Payload (snd adoptionData))
       else ret tt) ;;;
      adoptionDeptData <- fetch_json AdoptionByDepartment ;;
      (if fst adoptionDeptData
       then render AdoptionByDepartment (Payload (snd adoptionDeptData))
       else render AdoptionByDepartment EmptyArray) ;;;
      (* Load log hours users *)
      logHoursData <- fetch_json LogHours ;;
      (if fst logHoursData
       then render LogHours (Payload (snd logHoursData))
       else render LogHours EmptyArray) ;;;
      durationsData <- fetch_json RequestDurations ;;
      (if fst durationsData
       then render RequestDurations (Payload (snd durationsData))
       else render RequestDurations EmptyArray) ;;;
      successRatesData <- fetch_json RequestSuccessRates ;;
      (if fst successRatesData
       then render RequestSuccessRates (Payload (snd successRatesData))
       else render RequestSuccessRates EmptyArray) ;;;
      inactiveData <- fetch_json InactiveEmployees ;;
      (if fst inactiveData
       then render InactiveEmployees (Payload (snd inactiveData))
       else render InactiveEmployees EmptyArray) ;;;
      activitiesData <- fetch_json ActivitiesToday ;;
      (if fst activitiesData
       then render ActivitiesToday (Payload (snd activitiesData))
       else render ActivitiesToday EmptyArray) ;;;
      (* Load satisfaction *)
      satisfactionData <- fetch_json Satisfaction ;;
      (if fst satisfactionData
       then render Satisfaction (Payload (snd satisfactionData))
       else ret tt) ;;;
      (* Load ease comparison *)
      easeDataResponse <- fetch_json EaseComparison ;;
      (if fst easeDataResponse
       then render EaseComparison (Payload (snd easeDataResponse))
       else ret tt) )
    (emit ConsoleError).

(** The events of one cycle, started on an empty log. *)
Definition cycle : list Event := snd (loadDashboardData []).

End Cycle.

Arguments Rejected {Data}.
Arguments Envelope {Data} success data.
Arguments Payload {Data} data.
Arguments EmptyArray {Data}.
Arguments Render {Data} m input.
Arguments ConsoleError {Data}.

(** The order of the fetches. *)
Definition order : list Metric :=
  [ActiveUsers; Requests; Adoption; AdoptionByDepartment; LogHours;
   RequestDurations; RequestSuccessRates; InactiveEmployees;
   ActivitiesToday; Satisfaction; EaseComparison].

(** The metrics whose failure envelope has an [else] branch that renders
    the empty array. *)
Definition has_empty_branch (m : Metric) : bool :=
  match m with
  | AdoptionByDepartment | LogHours | RequestDurations
  | RequestSuccessRates | InactiveEmployees | ActivitiesToday => true
  | _ => false
  end.

(** The metrics fetched before [m]. *)
Fixpoint before (m : Metric) (l : list Metric) : list Metric :=
  match l with
  | [] => []
  | x :: rest => if Metric_eq_dec x m then [] else x :: before m rest
  end.

(** A cycle in which the requests endpoint cannot be reached, and one in
    which it answers with a failure envelope. *)
Definition requests_unreachable (m : Metric) : Response nat :=
  match m with
  | Requests => Rejected
  | _ => Envelope true 7%nat
  end.

Definition log_hours_refused (m : Metric) : Response nat :=
  match m with
  | LogHours => Envelope false 0%nat
  | _ => Envelope true 7%nat
  end.

End Refresh.


(** ** Chart instances

    The four global chart variables and the charts the library keeps
    alive.  A chart is named by the number [new Chart] gives it; it is
    live from its construction to its [destroy()]. *)

Module Charts.

Inductive Slot : Type :=
| activeUsersChart
| requestsChart
| easeComparisonChart
| planningCoverageChart.

Definition Slot_eqb (a b : Slot) : bool :=
  match a, b with
  | activeUsersChart, activeUsersChart
  | requestsChart, requestsChart
  | easeComparisonChart, easeComparisonChart
  | planningCoverageChart, planningCoverageChart => true
  | _, _ => false
  end.

Record Registry : Type := {
  (** the number of the next chart constructed *)
  next_id : nat;
  (** the live charts, each with the canvas (slot) it draws on *)
  live : list (Slot * nat);
  (** the global variables: [null] or the chart last assigned *)
  variable : Slot -> option nat
}.

Definition initial : Registry :=
  {| next_id := 0; live := []; variable := fun _ => None |}.

(** The live charts bound to the canvas of [slot]. *)
Definition live_on (slot : Slot) (r : Registry) : list nat :=
  map snd (filter (fun c => Slot_eqb (fst c) slot) (live r)).

(** [chart.destroy()]; destroying a chart twice changes nothing. *)
Definition destroy (chart : nat) (r : Registry) : Registry :=
  {| next_id := next_id r;
     live := filter (fun c => negb (Nat.eqb (snd c) chart)) (live r);
     variable := variable r |}.

(** [if (slotVariable) { slotVariable.destroy(); }] *)
Definition release_prior (slot : Slot) (r : Registry) : Registry :=
  match variable r slot with
  | Some chart => destroy chart r
  | None => r
  end.

(** [slotVariable = new Chart(ctx, config)] *)
Definition bind_new (slot : Slot) (r : Registry) : Registry :=
  {| next_id := S (next_id r);
     live := (slot, next_id r) :: live r;
     variable := fun s => if Slot_eqb s slot then Some (next_id r)
                          else variable r s |}.

(** [renderActiveUsersChart], [renderRequestsChart] and
    [renderEaseComparisonChart] (lines 369-385, 429-440, 484-520) treat
    their variable alike: destroy the chart it holds, construct another. *)
Definition renderActiveUsersChart (r : Registry) : Registry :=
  bind_new activeUsersChart (release_prior activeUsersChart r).

Definition renderRequestsChart (r : Registry) : Registry :=
  bind_new requestsChart (release_prior requestsChart r).

Definition renderEaseComparisonChart (r : Registry) : Registry :=
  bind_new easeComparisonChart (release_prior easeComparisonChart r).

(** The value of the view selector. *)
Inductive View : Type :=
| monthly
| weekly.

Section Planning.

(** An entry of the planning coverage series. *)
Variable Entry : Type.

(** [planningCoverageData] *)
Record PlanningData : Type := {
  monthly_series : list Entry;
  weekly_series : list Entry
}.

(** [dataset.slice(-limit)]: the last [limit] entries. *)
Definition slice_last (limit : nat) (dataset : list Entry) : list Entry :=
  skipn (List.length dataset - limit)%nat dataset.

Definition trimmed (data : PlanningData) (view : View) : list Entry :=
  match view with
  | monthly => slice_last 12 (monthly_series data)
  | weekly => slice_last 20 (weekly_series data)
  end.

(** [renderPlanningCoverageChart(view)], lines 1124-1150: the early
    [return] on an empty series comes after the [destroy()]. *)
Definition renderPlanningCoverageChart
    (data : PlanningData) (view : View) (r : Registry) : Registry :=
  let r := release_prior planningCoverageChart r in
  match trimmed data view with
  | [] => r
  | _ :: _ => bind_new planningCoverageChart r
  end.

(** A render call of the page. *)
Inductive Call : Type :=
| CallActiveUsers
| CallRequests
| CallEaseComparison
| CallPlanningCoverage (data : PlanningData) (view : View).

Definition call (c : Call) (r : Registry) : Registry :=
  match c with
  | CallActiveUsers => renderActiveUsersChart r
  | CallRequests => renderRequestsChart r
  | CallEaseComparison => renderEaseComparisonChart r
  | CallPlanningCoverage data view => renderPlanningCoverageChart data view r
  end.

(** The slot a call renders into. *)
Definition slot_of (c : Call) : Slot :=
  match c with
  | CallActiveUsers => activeUsersChart
  | CallRequests => requestsChart
  | CallEaseComparison => easeComparisonChart
  | CallPlanningCoverage _ _ => planningCoverageChart
  end.

(** Whether the call constructs a chart. *)
Definition draws (c : Call) : bool :=
  match c with
  | CallPlanningCoverage data view =>
      match trimmed data view with [] => false | _ => true end
  | _ => true
  end.

(** The state between the [destroy()] of a call and its [new Chart]. *)
Definition midway (c : Call) (r : Registry) : Registry :=
  release_prior (slot_of c) r.

(** The registry after a sequence of calls, and every state it went
    through on the way (two per call), oldest first. *)
Fixpoint run (calls : list Call) (r : Registry) : Registry :=
  match calls with
  | [] => r
  | c :: rest => run rest (call c r)
  end.

Fixpoint history (calls : list Call) (r : Registry) : list Registry :=
  match calls with
  | [] => [r]
  | c :: rest => r :: midway c r :: history rest (call c r)
  end.

End Planning.

Arguments CallActiveUsers {Entry}.
Arguments CallRequests {Entry}.
Arguments CallEaseComparison {Entry}.
Arguments CallPlanningCoverage {Entry} data view.
Arguments trimmed {Entry} data view.
Arguments renderPlanningCoverageChart {Entry} data view r.
Arguments call {Entry} c r.
Arguments slot_of {Entry} c.
Arguments draws {Entry} c.
Arguments midway {Entry} c r.
Arguments run {Entry} calls r.
Arguments history {Entry} calls r.


(** The invariant of the registry: a canvas carries one live chart at
    most, and a live chart is the one its slot's variable holds. *)
Definition at_most_one (r : Registry) : Prop :=
  forall slot, (List.length (live_on slot r) <= 1)%nat.

Definition held (r : Registry) : Prop :=
  forall slot chart, In (slot, chart) (live r) -> variable r slot = Some chart.

Definition consistent (r : Registry) : Prop := at_most_one r /\ held r.

(** A planning series with one month and no week. *)
Definition one_month : PlanningData nat :=
  {| monthly_series := [1%nat]; weekly_series := [] |}.

End Charts.

(** ** The ease comparison: average, editor and save *)

Module Ease.

(** *** Number arithmetic used by [calcAverage] *)

Definition add (a b : number) : number :=
  match a, b with
  | NaN, _ | _, NaN => NaN
  | PosInf, NegInf | NegInf, PosInf => NaN
  | PosInf, _ | _, PosInf => PosInf
  | NegInf, _ | _, NegInf => NegInf
  | Fin x, Fin y => Fin (x + y)
  end.

(** [x / n] for the length [n] of a non-empty array. *)
Definition div_length (x : number) (n : nat) : number :=
  match x with
  | Fin q => Fin (q / inject_Z (Z.of_nat n))
  | other => other
  end.

(** The nearest multiple of 1/100, ties away from zero: the number whose
    digits [x.toFixed(2)] prints. *)
Definition round2 (q : Q) : Q :=
  if Qle_bool 0 q then Qfloor (q * 100 + (1 # 2)) # 100
  else - (Qfloor (- q * 100 + (1 # 2)) # 100).

(** [parseFloat(x.toFixed(2))]: "NaN" and "Infinity" read back as
    themselves. *)
Definition parseFloat_toFixed2 (x : number) : number :=
  match x with
  | Fin q => Fin (round2 q)
  | other => other
  end.

(** A point of a series.  The [value] property may be missing or [null]
    in fetched data. *)
Record Point : Type := {
  period : string;
  value : option number
}.

(** [entry.value || 0]: a missing value, [null], 0 and NaN are falsy. *)
Definition value_or_zero (entry : Point) : number :=
  match value entry with
  | None => Fin 0
  | Some NaN => Fin 0
  | Some (Fin q) => if Qeq_bool q 0 then Fin 0 else Fin q
  | Some n => n
  end.

(** [calcAverage] of [renderEaseComparisonChart], lines 492-496. *)
Definition calcAverage (items : list Point) : number :=
  match items with
  | [] => Fin 0
  | _ :: _ =>
      let sum :=
        fold_left (fun total entry => add total (value_or_zero entry))
          items (Fin 0) in
      parseFloat_toFixed2 (div_length sum (List.length items))
  end.

(** *** [parseFloat] on the text of an input *)

Definition is_space (c : ascii) : bool :=
  let n := N_of_ascii c in
  ((n =? 32) || ((9 <=? n) && (n <=? 13)))%N.

Fixpoint skip_spaces (cs : list ascii) : list ascii :=
  match cs with
  | c :: rest => if is_space c then skip_spaces rest else cs
  | [] => []
  end.

(** The longest prefix of digits, and what follows it. *)
Fixpoint span_digits (cs : list ascii) : list Z * list ascii :=
  match cs with
  | c :: rest =>
      match digit c with
      | Some d => let (ds, tail) := span_digits rest in (d :: ds, tail)
      | None => ([], cs)
      end
  | [] => ([], [])
  end.

Definition digits_to_Z (ds : list Z) : Z :=
  fold_left (fun acc d => 10 * acc + d) ds 0.

(** An optional sign: whether it is a minus, and what follows it. *)
Definition take_sign (cs : list ascii) : bool * list ascii :=
  match cs with
  | c :: rest =>
      if Ascii.eqb c "-" then (true, rest)
      else if Ascii.eqb c "+" then (false, rest)
      else (false, cs)
  | [] => (false, cs)
  end.

Fixpoint starts_with (prefix cs : list ascii) : bool :=
  match prefix, cs with
  | [], _ => true
  | p :: prefix', c :: cs' => Ascii.eqb p c && starts_with prefix' cs'
  | _ :: _, [] => false
  end.

(** The exponent of an [e] part, 0 when no digit follows the [e]. *)
Definition exponent (cs : list ascii) : Z :=
  match cs with
  | c :: rest =>
      if Ascii.eqb c "e" || Ascii.eqb c "E" then
        let (negative, rest') := take_sign rest in
        match fst (span_digits rest') with
        | [] => 0
        | ds => if negative then - digits_to_Z ds else digits_to_Z ds
        end
      else 0
  | [] => 0
  end.

(** Magnitudes from here on round to an infinity in binary64. *)
Definition overflow_threshold : Q := inject_Z (2 ^ 1024 - 2 ^ 970).

(** [mantissa * 10^scale], exactly. *)
Definition decimal (mantissa scale : Z) : Q :=
  if 0 <=? scale then inject_Z (mantissa * 10 ^ scale)
  else mantissa # Z.to_pos (10 ^ (- scale)).

(** [parseFloat(text)]: leading white space is skipped (the ASCII white
    space here) and the longest prefix that is a decimal literal is
    converted; text after it is ignored, and text with no such prefix gives
    NaN. *)
Definition parseFloat (text : string) : number :=
  let (negative, cs) := take_sign (skip_spaces (list_ascii_of_string text)) in
  if starts_with (list_ascii_of_string "Infinity") cs then
    if negative then NegInf else PosInf
  else
    let (int_part, after_int) := span_digits cs in
    let (frac_part, after_frac) :=
      match after_int with
      | c :: rest =>
          if Ascii.eqb c "." then span_digits rest else ([], after_int)
      | [] => ([], after_int)
      end in
    match (int_part ++ frac_part)%list with
    | [] => NaN
    | ds =>
        let magnitude :=
          decimal (digits_to_Z ds)
            (exponent after_frac - Z.of_nat (List.length frac_part)) in
        if Qle_bool overflow_threshold magnitude then
          if negative then NegInf else PosInf
        else Fin (if negative then - magnitude else magnitude)
    end.

(** *** The editor and [saveEaseData], lines 1027-1074 *)

(** A row of the editor, a [div] of a container: the text of the input
    that carries the [data-period] attribute and of the input that carries
    [data-value].  [None] stands for a row without such an element, where
    [querySelector] gives [null]. *)
Record Row : Type := {
  period_input : option string;
  value_input : option string
}.

(** The rows of the two containers. *)
Record Editor : Type := {
  odooRows : list Row;
  nasmaRows : list Row
}.

(** [easeData], and the object the save submits. *)
Record EaseData : Type := {
  odoo : list Point;
  nasma : list Point
}.

(** [addEaseDataPoint(type, period, value)], lines 978-1008, appends a row
    made from a template.  The first tag of the template is written
    [< input ... data - period />]; with a blank after the [<] HTML reads
    it as text, so the row has the [data-value] input and no
    [data-period] input. *)
Definition addEaseDataPoint (value : string) (rows : list Row) : list Row :=
  push rows {| period_input := None; value_input := Some value |}.

(** The body of one [forEach] callback: push the row when
    [period && !isNaN(value)].  Reading [.value] of [null] throws a
    TypeError, which is [None] here. *)
Definition collect_row (data : list Point) (div : Row)
    : option (list Point) :=
  match period_input div with
  | None => None
  | Some period =>
      match value_input div with
      | None => None
      | Some text =>
          let value := parseFloat text in
          match period with
          | "" => Some data
          | _ =>
              if negb (isNaN value)
              then Some (push data {| period := period; value := Some value |})
              else Some data
          end
      end
  end.

(** [rows.forEach(callback)] from the array [data]. *)
Fixpoint collect_from (data : list Point) (rows : list Row)
    : option (list Point) :=
  match rows with
  | [] => Some data
  | div :: rest =>
      match collect_row data div with
      | Some data' => collect_from data' rest
      | None => None
      end
  end.

Definition collect (rows : list Row) : option (list Point) :=
  collect_from [] rows.

(** What the POST comes back with: the request or [response.json()]
    rejects, or the envelope [{success, error}] arrives. *)
Inductive Reply : Type :=
| Rejected
| Envelope (success : bool) (error : string).

(** What a save does to the world around the page state: the POST (of
    [JSON.stringify(body)]), the chart drawn with its two averages, an
    alert, a console error, and the TypeError that leaves the function. *)
Inductive effect : Type :=
| Post (body : EaseData)
| DrawChart (odooAverage nasmaAverage : number)
| Alert (message : string)
| ConsoleError
| UncaughtTypeError.

Record Page : Type := {
  easeData : EaseData;
  editor : Editor;
  (** the modal is shown (its [hidden] class is off) *)
  editorOpen : bool;
  charts : Charts.Registry;
  effects : list effect
}.

Definition log (es : list effect) (p : Page) : Page :=
  {| easeData := easeData p;
     editor := editor p;
     editorOpen := editorOpen p;
     charts := charts p;
     effects := (effects p ++ es)%list |}.

(** [renderEaseComparisonChart(data)]: the chart of the slot is replaced
    by one that draws the two averages. *)
Definition renderEaseComparisonChart (data : EaseData) (p : Page) : Page :=
  {| easeData := easeData p;
     editor := editor p;
     editorOpen := editorOpen p;
     charts := Charts.renderEaseComparisonChart (charts p);
     effects :=
       push (effects p)
         (DrawChart (calcAverage (odoo data)) (calcAverage (nasma data))) |}.

Definition hideEaseEditor (p : Page) : Page :=
  {| easeData := easeData p;
     editor := editor p;
     editorOpen := false;
     charts := charts p;
     effects := effects p |}.

Definition set_easeData (data : EaseData) (p : Page) : Page :=
  {| easeData := data;
     editor := editor p;
     editorOpen := editorOpen p;
     charts := charts p;
     effects := effects p |}.

Section Save.

(** The server's answer to a submitted body. *)
Variable server : EaseData -> Reply.

(** The two scans stand before the [try]: an error in them leaves the
    function with nothing done. *)
Definition saveEaseData (p : Page) : Page :=
  match collect (odooRows (editor p)) with
  | None => log [UncaughtTypeError] p
  | Some odooData =>
      match collect (nasmaRows (editor p)) with
      | None => log [UncaughtTypeError] p
      | Some nasmaData =>
          let body := {| odoo := odooData; nasma := nasmaData |} in
          let p := log [Post body] p in
          match server body with
          | Envelope true _ =>
              let p := set_easeData body p in
              let p := renderEaseComparisonChart (easeData p) p in
              let p := hideEaseEditor p in
              log [Alert "Ease comparison data saved successfully!"] p
          | Envelope false error =>
              log [Alert ("Failed to save ease comparison data: " ++ error)] p
          | Rejected =>
              log [ConsoleError; Alert "Error saving ease comparison data"] p
          end
      end
  end.

End Save.


(** *** Words of the specification, and sample pages *)

(** The value an entry contributes: its number, 0 when it has none. *)
Definition present_value (entry : Point) : Q :=
  match value entry with
  | Some (Fin q) => q
  | _ => 0
  end.

Definition sum_present (items : list Point) : Q :=
  fold_right (fun entry acc => present_value entry + acc)%Q 0%Q items.

(** The values of a series of the data model: finite numbers, or absent. *)
Definition finite_or_absent (entry : Point) : Prop :=
  match value entry with
  | Some (Fin _) | None => True
  | Some _ => False
  end.

Definition three_points : list Point :=
  [ {| period := "Week 1"; value := Some (Fin 7) |};
    {| period := "Week 2"; value := Some (Fin (17 # 2)) |};
    {| period := "Week 3"; value := None |} ].

(** A row with its two inputs. *)
Definition complete (row : Row) : Prop :=
  period_input row <> None /\ value_input row <> None.

(** A row is kept when its period is not empty and the number read from
    its value is not NaN. *)
Definition kept (row : Row) : bool :=
  match period_input row, value_input row with
  | Some period, Some text =>
      negb (String.eqb period "") && negb (isNaN (parseFloat text))
  | _, _ => false
  end.

Definition input_text (input : option string) : string :=
  match input with
  | Some text => text
  | None => ""
  end.

Definition point_of (row : Row) : Point :=
  {| period := input_text (period_input row);
     value := Some (parseFloat (input_text (value_input row))) |}.

(** Text from which [parseFloat] reads a number: after white space and an
    optional sign stands "Infinity", a digit, or a point and a digit. *)
Definition is_digit (c : ascii) : bool :=
  match digit c with Some _ => true | None => false end.

Definition numeric_prefix (text : string) : bool :=
  let cs := snd (take_sign (skip_spaces (list_ascii_of_string text))) in
  starts_with (list_ascii_of_string "Infinity") cs ||
  match cs with
  | c :: rest =>
      is_digit c ||
      (Ascii.eqb c "." &&
       match rest with d :: _ => is_digit d | [] => false end)
  | [] => false
  end.

(** The object that [saveEaseData] builds from the editor. *)
Definition submitted (p : Page) : option EaseData :=
  match collect (odooRows (editor p)), collect (nasmaRows (editor p)) with
  | Some odooData, Some nasmaData =>
      Some {| odoo := odooData; nasma := nasmaData |}
  | _, _ => None
  end.

(** An editor with a row without period, a row without a number and a
    valid row. *)
Definition three_rows : list Row :=
  [ {| period_input := Some ""; value_input := Some "5" |};
    {| period_input := Some "Week 2"; value_input := Some "abc" |};
    {| period_input := Some "Week 3"; value_input := Some "7.5" |} ].

Definition accepting (body : EaseData) : Reply := Envelope true "".
Definition refusing (body : EaseData) : Reply := Envelope false "denied".
Definition unreachable (body : EaseData) : Reply := Rejected.

(** A page with the editor open on [three_rows] for the odoo series. *)
Definition editing : Page :=
  {| easeData := {| odoo := []; nasma := [] |};
     editor := {| odooRows := three_rows; nasmaRows := [] |};
     editorOpen := true;
     charts := Charts.initial;
     effects := [] |}.

(** The editor as [showEaseEditor] builds it for two empty series: one
    blank row in each container. *)
Definition opened : Page :=
  {| easeData := {| odoo := []; nasma := [] |};
     editor := {| odooRows := addEaseDataPoint "" [];
                  nasmaRows := addEaseDataPoint "" [] |};
     editorOpen := true;
     charts := Charts.initial;
     effects := [] |}.

End Ease.


(** ** The filter bar in use *)

Module FilterFlow.
Import Filter.

(** What the user does to the filter bar: edit one of the two inputs, or
    click one of the two buttons. *)
Inductive action : Type :=
| EditStart (text : string)
| EditEnd (text : string)
| ClickApply
| ClickClear.

Definition act (a : action) (p : Page) : Page :=
  match a with
  | EditStart text =>
      {| startInput := text;
         endInput := endInput p;
         dashboardFilters := dashboardFilters p;
         effects := effects p |}
  | EditEnd text =>
      {| startInput := startInput p;
         endInput := text;
         dashboardFilters := dashboardFilters p;
         effects := effects p |}
  | ClickApply => applyClick p
  | ClickClear => clearClick p
  end.

Definition session (actions : list action) (p : Page) : Page :=
  fold_left (fun page a => act a page) actions p.

(** The page as loaded: empty inputs, [dashboardFilters = {start: null,
    end: null}]. *)
Definition loaded : Page :=
  {| startInput := "";
     endInput := "";
     dashboardFilters := {| start := None; end_ := None |};
     effects := [] |}.

(** A bound is [null] or a non-empty text, and when both are there the
    start is not greater than the end. *)
Definition ordered (f : Filters) : Prop :=
  start f <> Some "" /\ end_ f <> Some "" /\
  forall s e, start f = Some s -> end_ f = Some e -> string_gt s e = false.

(** The number of refreshes started. *)
Definition refreshes (p : Page) : nat :=
  List.length
    (filter (fun e => match e with LoadDashboardData => true | _ => false end)
       (effects p)).

Definition alerts (p : Page) : nat :=
  List.length
    (filter (fun e => match e with Alert _ => true | _ => false end)
       (effects p)).

Definition clicks (actions : list action) : nat :=
  List.length
    (filter (fun a => match a with ClickApply | ClickClear => true
                               | _ => false end) actions).

End FilterFlow.

(** ** Percent formatting *)

Module Percent.

(** [x.toFixed(decimals)] (for magnitudes below 10^21, where JavaScript
    prints plain digits): the nearest number with that many decimals, ties
    away from zero, the sign in front. *)
Definition toFixed (decimals : nat) (x : number) : string :=
  match x with
  | NaN => "NaN"
  | PosInf => "Infinity"
  | NegInf => "-Infinity"
  | Fin q =>
      let scale := 10 ^ Z.of_nat decimals in
      let n := Qfloor (Qabs q * inject_Z scale + (1 # 2)) in
      let digits :=
        string_of_Z (n / scale) ++
        match decimals with
        | O => ""
        | _ => "." ++ pad_digits decimals (n mod scale)
        end in
      if Qle_bool 0 q then digits else "-" ++ digits
  end.

Fixpoint all_zeros (text : string) : bool :=
  match text with
  | EmptyString => true
  | String c rest => Ascii.eqb c "0" && all_zeros rest
  end.

(** [text.replace(/\.0+$/, "")]: the first point that is followed by
    zeros only, and by one at least, is cut off with them. *)
Fixpoint strip_zero_fraction (text : string) : string :=
  match text with
  | EmptyString => ""
  | String c rest =>
      if Ascii.eqb c "." && negb (String.eqb rest "") && all_zeros rest
      then ""
      else String c (strip_zero_fraction rest)
  end.

(** [formatPercent(value, decimals = 1)], lines 180-186. *)
Definition formatPercent (v : value) (decimals : nat) : string :=
  match v with
  | VNumber n =>
      if isNaN n then "-"
      else strip_zero_fraction (toFixed decimals n) ++ "%"
  | _ => "-"
  end.

Fixpoint no_point (text : string) : bool :=
  match text with
  | EmptyString => true
  | String c rest => negb (Ascii.eqb c ".") && no_point rest
  end.

End Percent.

(** ** Date labels and the filter description *)

Module Labels.
Import Filter.

(** [date.toLocaleDateString()], as the en-US locale writes it: month, day
    and year of the local date. *)
Definition toLocaleDateString (tza t : Z) : string :=
  let local := LocalTime tza t in
  string_of_Z (MonthFromTime local + 1) ++ "/" ++
  string_of_Z (DateFromTime local) ++ "/" ++
  string_of_Z (YearFromTime local).

(** [date.toLocaleDateString(undefined, {month: "short", year: "2-digit"})],
    as the en-US locale writes it. *)
Definition toLocaleDateString_month_year (tza t : Z) : string :=
  let local := LocalTime tza t in
  month_short (MonthFromTime local) ++ " " ++
  pad_digits 2 (YearFromTime local mod 100).

Section Parsing.

(** [new Date(text).getTime()] and the zone, as for the query. *)
Variable Date_parse : string -> option Z.
Variable tza : Z.

(** [formatDateLabel(value)], lines 111-120. *)
Definition formatDateLabel (value : string) : string :=
  match value with
  | "" => ""
  | _ =>
      match Date_parse value with
      | None => value
      | Some date => toLocaleDateString tza date
      end
  end.

(** [formatMonthShort(value)], lines 122-134. *)
Definition formatMonthShort (value : string) : string :=
  match value with
  | "" => ""
  | _ =>
      match Date_parse (value ++ "-01T00:00:00") with
      | None => value
      | Some date => toLocaleDateString_month_year tza date
      end
  end.

(** [getFilterDescriptions()], lines 188-214: the summary and the range
    text. *)
Definition getFilterDescriptions (f : Filters) : string * string :=
  if negb (present (start f)) && negb (present (end_ f))
  then ("Showing all available data", "today")
  else
    let startText :=
      if present (start f) then formatDateLabel (text (start f))
      else "Beginning" in
    let endText :=
      if present (end_ f) then formatDateLabel (text (end_ f))
      else "Present" in
    let rangeText :=
      if present (start f) && present (end_ f)
      then startText ++ " - " ++ endText
      else if present (start f) then "since " ++ startText
      else "until " ++ endText in
    ("Showing data from " ++ startText ++ " to " ++ endText, rangeText).

End Parsing.

(** The date-time form YYYY-MM-DDTHH:mm:ss without offset of the
    ECMAScript date-time string format: it is read as local time. *)
Definition Date_parse_local (tza : Z) (text : string) : option Z :=
  match list_ascii_of_string text with
  | [y1; y2; y3; y4; dash1; m1; m2; dash2; d1; d2; tee;
     h1; h2; colon1; n1; n2; colon2; s1; s2] =>
      if Ascii.eqb dash1 "-" && Ascii.eqb dash2 "-" && Ascii.eqb tee "T" &&
         Ascii.eqb colon1 ":" && Ascii.eqb colon2 ":" then
        match digits_value 0 [y1; y2; y3; y4], digits_value 0 [m1; m2],
              digits_value 0 [d1; d2], digits_value 0 [h1; h2],
              digits_value 0 [n1; n2], digits_value 0 [s1; s2] with
        | Some y, Some m, Some d, Some h, Some n, Some s =>
            if (1 <=? m) && (m <=? 12) && (1 <=? d) &&
               (d <=? DaysInMonth (m - 1) (if isLeapYear y then 1 else 0)) &&
               (h <=? 23) && (n <=? 59) && (s <=? 59)
            then Some (UTC tza (MakeDate (MakeDay y (m - 1) d)
                                  (MakeTime h n s 0)))
            else None
        | _, _, _, _, _, _ => None
        end
      else None
  | _ => None
  end.

(** The text holds a blank. *)
Fixpoint has_blank (s : string) : bool :=
  match s with
  | EmptyString => false
  | String c rest => Ascii.eqb c " " || has_blank rest
  end.

End Labels.

(** ** The card layout, lines 786-943 *)

Module Layout.

(** A card of the dashboard, as far as the layout code reads and writes
    it.  A [data-x] attribute holds the text of a number, which
    [parseFloat] reads back as the same number; [None] is a missing
    attribute.  [transform] is [translate(x px, y px)] or empty ([None]).
    [offsetWidth] and [offsetHeight] are the rendered size. *)
Record Card : Type := {
  id : string;
  data_x : option number;
  data_y : option number;
  style_width : string;
  style_height : string;
  transform : option (number * number);
  offsetWidth : Z;
  offsetHeight : Z
}.

(** An entry of the stored layout, as JSON carries it: a number that is
    not finite is written as [null] ([None]). *)
Record Saved : Type := {
  x : option Q;
  y : option Q;
  width : string;
  height : string
}.

(** The layout object: card id to entry, the latest assignment first. *)
Definition LayoutMap : Type := list (string * Saved).

Fixpoint lookup (key : string) (layout : LayoutMap) : option Saved :=
  match layout with
  | [] => None
  | (k, v) :: rest => if String.eqb k key then Some v else lookup key rest
  end.

(** The names that every object inherits from [Object.prototype]. *)
Definition prototype_names : list string :=
  [ "__proto__"; "constructor"; "hasOwnProperty"; "isPrototypeOf";
    "propertyIsEnumerable"; "toLocaleString"; "toString"; "valueOf";
    "__defineGetter__"; "__defineSetter__"; "__lookupGetter__";
    "__lookupSetter__" ].

Definition inherited (key : string) : bool :=
  existsb (String.eqb key) prototype_names.

(** [layout[key] = entry].  Under the key [__proto__], unless the object
    has a property of its own of that name (as [JSON.parse] makes one),
    the assignment sets the prototype of the object and adds no property:
    [JSON.stringify] does not write it. *)
Definition assign (key : string) (entry : Saved) (layout : LayoutMap)
    : LayoutMap :=
  match String.eqb key "__proto__", lookup key layout with
  | true, None => layout
  | _, _ => (key, entry) :: layout
  end.

(** The text under [CARD_LAYOUT_STORAGE_KEY]: the JSON of a layout, or
    text that [JSON.parse] rejects. *)
Inductive Text : Type :=
| LayoutJson (layout : LayoutMap)
| Garbage.

(** [localStorage]: every call throws (storage disabled), or the key
    holds a text or nothing. *)
Inductive Storage : Type :=
| Unavailable
| Holding (item : option Text).

(** [getSavedCardLayout()], lines 883-891. *)
Definition getSavedCardLayout (s : Storage) : LayoutMap :=
  match s with
  | Holding (Some (LayoutJson layout)) => layout
  | _ => []
  end.

(** [parseFloat(card.getAttribute(name)) || 0] *)
Definition attribute_or_zero (attribute : option number) : number :=
  match attribute with
  | None | Some NaN => Fin 0
  | Some n => n
  end.

(** [JSON.stringify] of a number, read back by [JSON.parse]. *)
Definition json_number (n : number) : option Q :=
  match n with
  | Fin q => Some q
  | _ => None
  end.

(** [style.width || `${offsetWidth}px`] *)
Definition size_or_box (style : string) (box : Z) : string :=
  match style with
  | "" => string_of_Z box ++ "px"
  | _ => style
  end.

(** The entry that [persistCardState] writes for a card. *)
Definition entry_of (card : Card) : Saved :=
  {| x := json_number (attribute_or_zero (data_x card));
     y := json_number (attribute_or_zero (data_y card));
     width := size_or_box (style_width card) (offsetWidth card);
     height := size_or_box (style_height card) (offsetHeight card) |}.

(** [persistCardState(card)], lines 909-927.  A failing [setItem] is
    caught. *)
Definition persistCardState (card : Card) (s : Storage) : Storage :=
  match id card with
  | "" => s
  | _ =>
      let layout := getSavedCardLayout s in
      let layout := assign (id card) (entry_of card) layout in
      match s with
      | Unavailable => Unavailable
      | Holding _ => Holding (Some (LayoutJson layout))
      end
  end.

(** [state.x || 0] on a stored coordinate. *)
Definition coordinate (stored : option Q) : number :=
  match stored with
  | Some q => Fin q
  | None => Fin 0
  end.

(** [applyCardState(card, state)], lines 893-907. *)
Definition applyCardState (card : Card) (state : Saved) : Card :=
  let px := coordinate (x state) in
  let py := coordinate (y state) in
  {| id := id card;
     data_x := Some px;
     data_y := Some py;
     style_width :=
       match width state with "" => style_width card | w => w end;
     style_height :=
       match height state with "" => style_height card | h => h end;
     transform := Some (px, py);
     offsetWidth := offsetWidth card;
     offsetHeight := offsetHeight card |}.

(** [card.dataset.x = card.dataset.x || 0] *)
Definition dataset_or_zero (attribute : option number) : option number :=
  match attribute with
  | None => Some (Fin 0)
  | Some n => Some n
  end.

(** What [savedLayout[card.id]] gives for an id that is no property of
    the layout itself but a name of [Object.prototype]: a function, or the
    prototype, which is truthy and has none of [x], [y], [width] and
    [height]. *)
Definition inherited_value : Saved :=
  {| x := None; y := None; width := ""; height := "" |}.

(** The body of the [cards.forEach] of [initCardInteractions]. *)
Definition restore (savedLayout : LayoutMap) (card : Card) : Card :=
  let card :=
    {| id := id card;
       data_x := dataset_or_zero (data_x card);
       data_y := dataset_or_zero (data_y card);
       style_width := style_width card;
       style_height := style_height card;
       transform := transform card;
       offsetWidth := offsetWidth card;
       offsetHeight := offsetHeight card |} in
  match lookup (id card) savedLayout with
  | Some saved => applyCardState card saved
  | None =>
      if inherited (id card) then applyCardState card inherited_value
      else card
  end.

(** [initCardInteractions()], lines 786-871: the cards after it, and
    whether the drag handles are shown and live.  Without the interact
    library the function returns at once. *)
Definition initCardInteractions
    (interactLoaded isAdminView : bool) (s : Storage) (cards : list Card)
    : list Card * bool :=
  if interactLoaded
  then (map (restore (getSavedCardLayout s)) cards, isAdminView)
  else (cards, false).

(** [dragMoveListener(event)], lines 873-881, on the card under the
    pointer. *)
Definition dragMoveListener (dx dy : number) (card : Card) : Card :=
  let px := Ease.add (attribute_or_zero (data_x card)) dx in
  let py := Ease.add (attribute_or_zero (data_y card)) dy in
  {| id := id card;
     data_x := Some px;
     data_y := Some py;
     style_width := style_width card;
     style_height := style_height card;
     transform := Some (px, py);
     offsetWidth := offsetWidth card;
     offsetHeight := offsetHeight card |}.

Definition cleared (card : Card) : Card :=
  {| id := id card;
     data_x := None;
     data_y := None;
     style_width := "";
     style_height := "";
     transform := None;
     offsetWidth := offsetWidth card;
     offsetHeight := offsetHeight card |}.

(** [resetCardLayout()], lines 929-943.  A failing [removeItem] is
    caught. *)
Definition resetCardLayout (s : Storage) (cards : list Card)
    : Storage * list Card :=
  (match s with
   | Unavailable => Unavailable
   | Holding _ => Holding None
   end,
   map cleared cards).

(** A drag: the moves of the pointer, then the [end] listener, which
    persists the card. *)
Definition drag (moves : list (Q * Q)) (card : Card) : Card :=
  fold_left (fun c move => dragMoveListener (Fin (fst move)) (Fin (snd move)) c)
    moves card.

(** A card dragged 40 pixels to the right, with a height of its own. *)
Definition sample_card : Card :=
  {| id := "card-adoption";
     data_x := Some (Fin 40);
     data_y := None;
     style_width := "";
     style_height := "220px";
     transform := Some (Fin 40, Fin 0);
     offsetWidth := 320;
     offsetHeight := 220 |}.

End Layout.

(** ** The theme, lines 228-259, and the load handler, lines 38-46 *)

Module Theme.

(** [localStorage] under [THEME_STORAGE_KEY]: every call throws, or the
    key holds a text or nothing. *)
Inductive Store : Type :=
| Unavailable
| Holding (item : option string).

Record Page : Type := {
  (** the body carries the class [dark-mode] *)
  darkMode : bool;
  (** the icon of the button is the sun (it is the moon otherwise) *)
  sunIcon : bool;
  store : Store
}.

(** [applyTheme(theme)], lines 244-259. *)
Definition applyTheme (theme : string) (p : Page) : Page :=
  {| darkMode := String.eqb theme "dark";
     sunIcon := String.eqb theme "dark";
     store := store p |}.

(** [initThemeToggle()], lines 228-242, up to the registration of the
    click listener; [None] when it throws.  The call of [localStorage]
    stands outside any [try]. *)
Definition initThemeToggle (hasButton : bool) (p : Page) : option Page :=
  if hasButton then
    match store p with
    | Unavailable => None
    | Holding item =>
        let savedTheme :=
          match item with
          | None | Some "" => "light"
          | Some theme => theme
          end in
        Some (applyTheme savedTheme p)
    end
  else Some p.

(** The click listener of the theme button. *)
Definition toggleClick (p : Page) : Page :=
  let newTheme := if darkMode p then "light" else "dark" in
  let p := applyTheme newTheme p in
  match store p with
  | Unavailable => p
  | Holding _ =>
      {| darkMode := darkMode p;
         sunIcon := sunIcon p;
         store := Holding (Some newTheme) |}
  end.

(** The calls of the [DOMContentLoaded] listener. *)
Inductive Call : Type :=
| InitCardInteractions
| InitFilterControls
| UpdateFilterLabel
| InitThemeToggle
| InitPlanningCoverageControls
| LoadDashboardData
| LoadPlanningCoverage.

(** The listener: the calls it makes, in order, until one throws, and the
    page when none did. *)
Definition onDOMContentLoaded (hasButton : bool) (p : Page)
    : list Call * option Page :=
  let calls :=
    [InitCardInteractions; InitFilterControls; UpdateFilterLabel;
     InitThemeToggle] in
  match initThemeToggle hasButton p with
  | None => (calls, None)
  | Some p' =>
      ((calls ++ [InitPlanningCoverageControls; LoadDashboardData;
                  LoadPlanningCoverage])%list,
       Some p')
  end.

End Theme.

(** ** Loading the planning coverage, lines 1090-1119 *)

Module PlanningLoad.
Import Charts.

Section Load.

Variable Entry : Type.

(** What the fetch of the planning endpoint gives: it rejects, or a
    payload arrives with its [ok] flag and the two series of its [data],
    [None] for a series that is missing or not an array. *)
Inductive Reply : Type :=
| Rejected
| Payload (ok : bool) (monthly_data weekly_data : option (list Entry)).

Definition array_or_empty (series : option (list Entry)) : list Entry :=
  match series with
  | Some entries => entries
  | None => []
  end.

Definition no_data : PlanningData Entry :=
  {| monthly_series := []; weekly_series := [] |}.

(** [loadPlanningCoverage()]: the new [planningCoverageData] and the
    charts after its render; [selected] is the value of the view
    selector. *)
Definition loadPlanningCoverage
    (reply : Reply) (selected : View) (r : Registry)
    : PlanningData Entry * Registry :=
  match reply with
  | Payload true monthly_data weekly_data =>
      let data :=
        {| monthly_series := array_or_empty monthly_data;
           weekly_series := array_or_empty weekly_data |} in
      (data, renderPlanningCoverageChart data selected r)
  | Payload false _ _ =>
      (no_data, renderPlanningCoverageChart no_data monthly r)
  | Rejected =>
      (no_data, renderPlanningCoverageChart no_data monthly r)
  end.

End Load.

Arguments Rejected {Entry}.
Arguments Payload {Entry} ok monthly_data weekly_data.
Arguments loadPlanningCoverage {Entry} reply selected r.
Arguments no_data {Entry}.

End PlanningLoad.

(** ** The request durations card, lines 575-603 *)

Module Durations.

(** An entry of the durations array: [null], or an object with the two
    properties the card reads. *)
Record Entry : Type := {
  metric_type : value;
  avg_duration_seconds : value
}.

Definition lower (c : ascii) : ascii :=
  let n := N_of_ascii c in
  if ((65 <=? n) && (n <=? 90))%N then ascii_of_N (n + 32) else c.

(** [text.toLowerCase()] on ASCII text. *)
Fixpoint toLowerCase (text : string) : string :=
  match text with
  | EmptyString => ""
  | String c rest => String (lower c) (toLowerCase rest)
  end.

(** The [lookup] object: key to value, the latest assignment first. *)
Fixpoint get (key : string) (lookup : list (string * value)) : value :=
  match lookup with
  | [] => VUndefined
  | (k, v) :: rest => if String.eqb k key then v else get key rest
  end.

(** The body of the first [forEach]. *)
Definition record_entry (lookup : list (string * value)) (entry : option Entry)
    : list (string * value) :=
  match entry with
  | None => lookup
  | Some e =>
      match metric_type e with
      | VString name =>
          (toLowerCase name,
           match avg_duration_seconds e with
           | VNumber n => VNumber n
           | _ => VNull
           end) :: lookup
      | _ => lookup
      end
  end.

(** [updateRequestDurationsCard(entries)]: the text of the time-off and
    of the overtime element.  [None] is an argument that is not an
    array. *)
Definition updateRequestDurationsCard
    (entries : option (list (option Entry))) : string * string :=
  let lookup :=
    fold_left record_entry
      (match entries with Some l => l | None => [] end) [] in
  (formatDurationDisplay (get "timeoff" lookup),
   formatDurationDisplay (get "overtime" lookup)).

(** An entry whose type is the text [key], whatever its case. *)
Definition names (key : string) (entry : option Entry) : bool :=
  match entry with
  | Some e =>
      match metric_type e with
      | VString name => String.eqb (toLowerCase name) key
      | _ => false
      end
  | None => false
  end.

(** What the card reads for an entry. *)
Definition seconds_of (entry : option Entry) : value :=
  match entry with
  | Some e =>
      match avg_duration_seconds e with
      | VNumber n => VNumber n
      | _ => VNull
      end
  | None => VNull
  end.

End Durations.

(** ** Opening the ease editor, lines 950-1015 *)

Module EaseEditor.
Import Ease.

Section Open.

(** The text that a template literal gives for the [value] of a point. *)
Variable show : option number -> string.

(** [populateEaseEditor(type, data)], lines 962-973: one row per point, or
    one blank row for an empty series. *)
Definition populateEaseEditor (data : list Point) : list Row :=
  match data with
  | [] => addEaseDataPoint "" []
  | _ =>
      fold_left (fun rows item => addEaseDataPoint (show (value item)) rows)
        data []
  end.

(** [showEaseEditor()], lines 950-957. *)
Definition showEaseEditor (p : Page) : Page :=
  {| easeData := easeData p;
     editor := {| odooRows := populateEaseEditor (odoo (easeData p));
                  nasmaRows := populateEaseEditor (nasma (easeData p)) |};
     editorOpen := true;
     charts := charts p;
     effects := effects p |}.

End Open.

(** [removeEaseDataPoint(button)], lines 1013-1015, for the button of the
    row at [index]. *)
Fixpoint removeEaseDataPoint (index : nat) (rows : list Row) : list Row :=
  match rows, index with
  | [], _ => []
  | _ :: rest, O => rest
  | row :: rest, S i => row :: removeEaseDataPoint i rest
  end.

(** A point of the scale of the chart: its value is a number from 0 to
    10, or absent. *)
Definition in_scale (entry : Point) : Prop :=
  match value entry with
  | Some (Fin q) => (0 <= q <= 10)%Q
  | None => True
  | Some _ => False
  end.

End EaseEditor.

(** * Theorems *)

(** ** Facts on the calendar *)

Lemma YearFromDay_spec (day : Z) :
  DayFromYear (YearFromDay day) <= day < DayFromYear (YearFromDay day + 1).
Proof.
  unfold YearFromDay.
  destruct (Z.ltb_spec day (DayFromYear (1970 + 400 * day / 146097))) as [H1|H1].
  - unfold DayFromYear in *. Z.div_mod_to_equations. lia.
  - destruct (Z.leb_spec (DayFromYear (1970 + 400 * day / 146097 + 1)) day) as [H2|H2].
    + unfold DayFromYear in *. Z.div_mod_to_equations. lia.
    + lia.
Qed.

Lemma DayFromYear_succ (y : Z) :
  DayFromYear (y + 1) = DayFromYear y + DaysInYear y.
Proof.
  unfold DayFromYear, DaysInYear, isLeapYear.
  destruct (Z.eqb_spec (y mod 4) 0), (Z.eqb_spec (y mod 100) 0),
    (Z.eqb_spec (y mod 400) 0); cbn [andb orb negb];
    Z.div_mod_to_equations; lia.
Qed.

Lemma DaysInYear_pos (y : Z) : 365 <= DaysInYear y <= 366.
Proof. unfold DaysInYear. destruct (isLeapYear y); lia. Qed.

Lemma DayFromYear_mono (y y' : Z) :
  y <= y' -> DayFromYear y <= DayFromYear y'.
Proof.
  intros H. unfold DayFromYear. Z.div_mod_to_equations. lia.
Qed.

Lemma YearFromDay_unique (day y : Z) :
  DayFromYear y <= day < DayFromYear (y + 1) -> YearFromDay day = y.
Proof.
  intros H. pose proof (YearFromDay_spec day) as S.
  destruct (Z.lt_trichotomy (YearFromDay day) y) as [L|[E|G]]; [|exact E|].
  - pose proof (DayFromYear_mono (YearFromDay day + 1) y ltac:(lia)). lia.
  - pose proof (DayFromYear_mono (y + 1) (YearFromDay day) ltac:(lia)). lia.
Qed.

Lemma Day_MakeDate (day time : Z) :
  0 <= time < msPerDay -> Day (MakeDate day time) = day.
Proof.
  intros H. unfold Day, MakeDate, msPerDay in *.
  Z.div_mod_to_equations. lia.
Qed.

Lemma TimeWithinDay_MakeDate (day time : Z) :
  0 <= time < msPerDay -> TimeWithinDay (MakeDate day time) = time.
Proof.
  intros H. unfold TimeWithinDay, MakeDate, msPerDay in *.
  Z.div_mod_to_equations. lia.
Qed.

(** A calendar date survives the trip through its time value. *)
Lemma civil_roundtrip (y m d time : Z) :
  0 <= m < 12 ->
  1 <= d <= DaysInMonth m (if isLeapYear y then 1 else 0) ->
  0 <= time < msPerDay ->
  let t := MakeDate (MakeDay y m d) time in
  YearFromTime t = y /\ MonthFromTime t = m /\ DateFromTime t = d.
Proof.
  intros Hm Hd Ht t.
  assert (Dt : Day t = MakeDay y m d) by (apply Day_MakeDate; exact Ht).
  assert (Hdiv : m / 12 = 0) by (apply Z.div_small; lia).
  assert (Hmod : m mod 12 = m) by (apply Z.mod_small; lia).
  assert (Md : MakeDay y m d =
    DayFromYear y + DaysBeforeMonth m (if isLeapYear y then 1 else 0) + d - 1).
  { unfold MakeDay. rewrite Hdiv, Hmod, Z.add_0_r. reflexivity. }
  assert (Hy : YearFromTime t = y).
  { unfold YearFromTime. rewrite Dt, Md. apply YearFromDay_unique.
    rewrite DayFromYear_succ. unfold DaysInYear.
    destruct (isLeapYear y);
      assert (m = 0 \/ m = 1 \/ m = 2 \/ m = 3 \/ m = 4 \/ m = 5 \/ m = 6 \/
              m = 7 \/ m = 8 \/ m = 9 \/ m = 10 \/ m = 11) as Cases by lia;
      repeat (destruct Cases as [-> | Cases]); try subst m;
      cbn [DaysBeforeMonth DaysInMonth] in *; lia. }
  assert (Hw : DayWithinYear t =
    DaysBeforeMonth m (if isLeapYear y then 1 else 0) + d - 1).
  { unfold DayWithinYear. rewrite Hy, Dt, Md. lia. }
  assert (Hl : InLeapYear t = if isLeapYear y then 1 else 0).
  { unfold InLeapYear. rewrite Hy. reflexivity. }
  assert (Hmo : MonthFromTime t = m).
  { unfold MonthFromTime. rewrite Hw, Hl.
    destruct (isLeapYear y);
      assert (m = 0 \/ m = 1 \/ m = 2 \/ m = 3 \/ m = 4 \/ m = 5 \/ m = 6 \/
              m = 7 \/ m = 8 \/ m = 9 \/ m = 10 \/ m = 11) as Cases by lia;
      repeat (destruct Cases as [-> | Cases]); try subst m;
      cbn [DaysBeforeMonth DaysInMonth] in *;
      repeat match goal with
             | |- context [ ?a <? ?b ] => destruct (Z.ltb_spec a b); try lia
             end. }
  split; [exact Hy|]. split; [exact Hmo|].
  unfold DateFromTime. rewrite Hmo, Hw, Hl. lia.
Qed.

(** ** Duration formatting *)

Lemma nonempty_or (s fallback : string) :
  s <> "" ->
  match s with
  | "" => fallback
  | String c rest => String c rest
  end = s.
Proof. destruct s; [congruence | reflexivity]. Qed.

Lemma append_nonempty (s t : string) : t <> "" -> s ++ t <> "".
Proof. destruct s, t; simpl; congruence. Qed.

Lemma string_append_assoc (a b c : string) : (a ++ b) ++ c = a ++ b ++ c.
Proof. induction a as [|x a IH]; simpl; [reflexivity | now rewrite IH]. Qed.

Lemma Math_round_positive (q : Q) :
  (0 < q)%Q -> 0 <= Qfloor (q + (1 # 2)).
Proof.
  intros H. change 0 with (Qfloor 0). apply Qfloor_resp_le.
  apply Qlt_le_weak.
  apply Qlt_trans with q; [exact H|].
  rewrite <- (Qplus_0_r q) at 1. apply Qplus_lt_r. reflexivity.
Qed.

Lemma guard_positive (q : Q) :
  (0 < q)%Q -> isNaN (Fin q) || le_zero (Fin q) = false.
Proof.
  intros H. simpl. destruct (Qle_bool q 0) eqn:E; [|reflexivity].
  apply Qle_bool_iff in E. exfalso. exact (Qlt_not_le _ _ H E).
Qed.

(** The text of a positive finite duration, from the rounded number of
    seconds [r]. *)
Lemma formatDurationDisplay_rounded (q : Q) :
  (0 < q)%Q ->
  let r := Qfloor (q + (1 # 2)) in
  let text := formatDurationDisplay (VNumber (Fin q)) in
  (r = 0 -> text = "0s") /\
  (0 < r < 60 -> text = string_of_Z r ++ "s") /\
  (60 <= r < 3600 -> r mod 60 = 0 -> text = string_of_Z (r / 60) ++ "m") /\
  (60 <= r < 3600 -> r mod 60 <> 0 ->
     text = string_of_Z (r / 60) ++ "m " ++ string_of_Z (r mod 60) ++ "s") /\
  (3600 <= r -> (r mod 3600) / 60 = 0 ->
     text = string_of_Z (r / 3600) ++ "h") /\
  (3600 <= r -> (r mod 3600) / 60 <> 0 ->
     text = string_of_Z (r / 3600) ++ "h " ++
            string_of_Z ((r mod 3600) / 60) ++ "m").
Proof.
  intros Hq r text. subst text.
  pose proof (Math_round_positive q Hq) as Hr. fold r in Hr.
  unfold formatDurationDisplay. rewrite (guard_positive q Hq).
  cbn [Math_round floor_div rem truthy ToString]. fold r.
  rewrite !Z.rem_mod_nonneg by lia.
  assert (E60 : (r mod 3600) mod 60 = r mod 60).
  { Z.div_mod_to_equations. lia. }
  repeat split.
  - intros ->. reflexivity.
  - intros H.
    replace (r / 3600) with 0 by (Z.div_mod_to_equations; lia).
    replace (r mod 3600 / 60) with 0 by (Z.div_mod_to_equations; lia).
    replace (r mod 60) with r by (Z.div_mod_to_equations; lia).
    cbn [Z.eqb negb andb push app join].
    destruct (Z.eqb_spec r 0); [lia|]. cbn [negb join].
    apply nonempty_or. apply append_nonempty. discriminate.
  - intros H H0.
    replace (r / 3600) with 0 by (Z.div_mod_to_equations; lia).
    replace (r mod 3600 / 60) with (r / 60) by (Z.div_mod_to_equations; lia).
    rewrite H0. cbn [Z.eqb negb andb push app join].
    destruct (Z.eqb_spec (r / 60) 0);
      [exfalso; Z.div_mod_to_equations; lia|].
    cbn [negb push app join].
    apply nonempty_or. apply append_nonempty. discriminate.
  - intros H H0.
    replace (r / 3600) with 0 by (Z.div_mod_to_equations; lia).
    replace (r mod 3600 / 60) with (r / 60) by (Z.div_mod_to_equations; lia).
    cbn [Z.eqb negb andb push app join].
    destruct (Z.eqb_spec (r / 60) 0);
      [exfalso; Z.div_mod_to_equations; lia|].
    destruct (Z.eqb_spec (r mod 60) 0); [lia|].
    cbn [negb push app join].
    transitivity ((string_of_Z (r / 60) ++ "m") ++ " " ++ string_of_Z (r mod 60) ++ "s").
    + apply nonempty_or. apply append_nonempty. discriminate.
    + rewrite !string_append_assoc. reflexivity.
  - intros H H0. rewrite H0.
    destruct (Z.eqb_spec (r / 3600) 0);
      [exfalso; Z.div_mod_to_equations; lia|].
    cbn [Z.eqb negb andb push app join].
    apply nonempty_or. apply append_nonempty. discriminate.
  - intros H H0.
    destruct (Z.eqb_spec (r / 3600) 0);
      [exfalso; Z.div_mod_to_equations; lia|].
    destruct (Z.eqb_spec (r mod 3600 / 60) 0); [lia|].
    cbn [Z.eqb negb andb push app join].
    transitivity ((string_of_Z (r / 3600) ++ "h") ++ " " ++ string_of_Z (r mod 3600 / 60) ++ "m").
    + apply nonempty_or. apply append_nonempty. discriminate.
    + rewrite !string_append_assoc. reflexivity.
Qed.

(** The decimal text of a positive integer starts with a digit that is
    not 0. *)
Lemma to_uint_unorm (p : positive) :
  Decimal.unorm (Pos.to_uint p) = Pos.to_uint p.
Proof.
  rewrite <- (DecimalPos.Unsigned.to_of (Pos.to_uint p)).
  rewrite DecimalPos.Unsigned.of_to. reflexivity.
Qed.

Lemma to_uint_head (p : positive) (u : Decimal.uint) :
  Pos.to_uint p <> Decimal.D0 u.
Proof.
  intros E. pose proof (to_uint_unorm p) as N. rewrite E in N.
  rewrite DecimalFacts.unorm_D0 in N.
  destruct (Decimal.uint_eq_dec u Decimal.Nil) as [->|Hu].
  - exact (DecimalPos.Unsigned.to_uint_nonzero p E).
  - pose proof (DecimalFacts.nb_digits_unorm u Hu) as L.
    rewrite N in L. simpl in L. lia.
Qed.

Lemma string_of_Z_head (z : Z) :
  0 < z ->
  exists c rest, string_of_Z z = String c rest /\ c <> "0"%char.
Proof.
  intros H. destruct z as [|p|p]; try lia.
  unfold string_of_Z. cbn [Z.to_int NilZero.string_of_int].
  unfold NilZero.string_of_uint.
  pose proof (DecimalPos.Unsigned.to_uint_nonnil p) as NN.
  pose proof (to_uint_head p) as NZ.
  destruct (Pos.to_uint p) as [|u|u|u|u|u|u|u|u|u|u]; try congruence;
    try (specialize (NZ u); congruence);
    cbn [NilEmpty.string_of_uint];
    eexists; eexists; (split; [reflexivity | discriminate]).
Qed.

Lemma head_not_zero (z : Z) (tail : string) :
  0 < z -> string_of_Z z ++ tail <> "0h 0m".
Proof.
  intros H E. destruct (string_of_Z_head z H) as (c & rest & Ez & Hc).
  rewrite Ez in E. simpl in E. congruence.
Qed.

Lemma formatDurationDisplay_never_0h_0m (v : value) :
  formatDurationDisplay v <> "0h 0m".
Proof.
  destruct v as [| |n|s]; try discriminate.
  destruct n as [| | |q]; try discriminate.
  destruct (Qlt_le_dec 0 q) as [Hq|Hq].
  - destruct (formatDurationDisplay_rounded q Hq)
      as (R0 & R1 & R2 & R3 & R4 & R5).
    pose proof (Math_round_positive q Hq) as Hr.
    set (r := Qfloor (q + (1 # 2))) in *.
    destruct (Z.eq_dec r 0) as [E0|N0]; [rewrite (R0 E0); discriminate|].
    destruct (Z_lt_dec r 60) as [L60|G60].
    { rewrite R1 by lia. apply head_not_zero. lia. }
    destruct (Z_lt_dec r 3600) as [L3600|G3600].
    { destruct (Z.eq_dec (r mod 60) 0) as [E|N].
      - rewrite R2 by lia. apply head_not_zero.
        Z.div_mod_to_equations; lia.
      - rewrite R3 by lia. apply head_not_zero.
        Z.div_mod_to_equations; lia. }
    destruct (Z.eq_dec (r mod 3600 / 60) 0) as [E|N].
    + rewrite R4 by lia. apply head_not_zero.
      Z.div_mod_to_equations; lia.
    + rewrite R5 by lia. apply head_not_zero.
      Z.div_mod_to_equations; lia.
  - unfold formatDurationDisplay. cbn [isNaN le_zero orb].
    apply Qle_bool_iff in Hq. rewrite Hq. discriminate.
Qed.




(** ** Week labels *)

Lemma MakeDay_january (year date : Z) :
  MakeDay year 0 date = DayFromYear year + date - 1.
Proof.
  unfold MakeDay. change (0 / 12) with 0. change (0 mod 12) with 0.
  rewrite !Z.add_0_r. cbn [DaysBeforeMonth]. lia.
Qed.

Lemma MakeTime_midnight : MakeTime 0 0 0 0 = 0.
Proof. reflexivity. Qed.

(** Outside the years 0 to 99, which [Date.UTC] reads as 1900 to 1999,
    [weekStart] is midnight UTC of the Monday of the ISO week. *)
Lemma weekStart_is_iso_monday (year week : Z) :
  ~ (0 <= year <= 99) ->
  weekStart year week = MakeDate (isoWeekMonday year week) 0.
Proof.
  intros Hy. unfold weekStart, Date_UTC.
  replace ((0 <=? year) && (year <=? 99)) with false
    by (symmetry; apply andb_false_iff;
        destruct (Z.leb_spec 0 year), (Z.leb_spec year 99); auto; lia).
  rewrite MakeTime_midnight.
  set (t := MakeDate (MakeDay year 0 4) 0).
  assert (Ht : 0 <= 0 < msPerDay) by (unfold msPerDay; lia).
  destruct (civil_roundtrip year 0 4 0) as (Y & Mo & D);
    [lia | cbn [DaysInMonth]; lia | exact Ht |].
  fold t in Y, Mo, D.
  unfold setUTCDate, getUTCDate, getUTCDay, WeekDay.
  rewrite Y, Mo, D.
  assert (Dt : Day t = MakeDay year 0 4) by (apply Day_MakeDate; exact Ht).
  assert (Tw : TimeWithinDay t = 0)
    by (apply TimeWithinDay_MakeDate; exact Ht).
  rewrite Dt, Tw. f_equal.
  unfold isoWeekMonday. rewrite !MakeDay_january.
  set (j := DayFromYear year).
  destruct (Z.eqb_spec ((j + 4 - 1 + 4) mod 7) 0);
    Z.div_mod_to_equations; lia.
Qed.

Lemma isoWeekMonday_is_monday (year week : Z) :
  WeekDay (MakeDate (isoWeekMonday year week) 0) = 1.
Proof.
  unfold WeekDay. rewrite Day_MakeDate by (unfold msPerDay; lia).
  unfold isoWeekMonday. Z.div_mod_to_equations. lia.
Qed.

Lemma isoWeekMonday_week1_holds_jan4 (year : Z) :
  isoWeekMonday year 1 <= MakeDay year 0 4 <= isoWeekMonday year 1 + 6.
Proof. unfold isoWeekMonday. Z.div_mod_to_equations. lia. Qed.

(** The local calendar day of midnight UTC of day [day]: the same day at
    or east of Greenwich, the day before west of it. *)
Lemma local_day_of_utc_midnight (tza day : Z) :
  (0 <= tza < msPerDay -> Day (LocalTime tza (MakeDate day 0)) = day) /\
  (- msPerDay <= tza < 0 -> Day (LocalTime tza (MakeDate day 0)) = day - 1).
Proof.
  unfold Day, LocalTime, MakeDate, msPerDay.
  split; intros H; Z.div_mod_to_equations; lia.
Qed.

(** C9, where the claim holds: for a year outside 0..99 and a zone at or
    east of Greenwich, the date the label shows is the Monday of the ISO
    week, found from January 4th. *)
Lemma formatWeekLabel_east (tza year week : Z) :
  ~ (0 <= year <= 99) ->
  0 <= tza < msPerDay ->
  let shown := LocalTime tza (weekStart year week) in
  Day shown = isoWeekMonday year week /\
  WeekDay (MakeDate (Day shown) 0) = 1.
Proof.
  intros Hy Hz shown. subst shown.
  rewrite (weekStart_is_iso_monday year week Hy).
  rewrite (proj1 (local_day_of_utc_midnight tza _) Hz).
  split; [reflexivity | apply isoWeekMonday_is_monday].
Qed.

(** The week label of 2024-W01 one hour east of Greenwich. *)
Lemma formatWeekLabel_east_witness :
  Day (LocalTime msPerHour (weekStart 2024 1)) = MakeDay 2024 0 1 /\
  WeekDay (MakeDate (Day (LocalTime msPerHour (weekStart 2024 1))) 0) = 1.
Proof.
  destruct (formatWeekLabel_east msPerHour 2024 1) as [A B].
  - lia.
  - vm_compute. split; congruence.
  - split; [rewrite A; vm_compute; reflexivity | exact B].
Defined.

(** West of Greenwich the label shows the Sunday before that Monday. *)
Lemma formatWeekLabel_west (tza year week : Z) :
  ~ (0 <= year <= 99) ->
  - msPerDay <= tza < 0 ->
  Day (LocalTime tza (weekStart year week)) = isoWeekMonday year week - 1.
Proof.
  intros Hy Hz.
  rewrite (weekStart_is_iso_monday year week Hy).
  exact (proj2 (local_day_of_utc_midnight tza _) Hz).
Qed.

(** C9 (code defect).  In a browser whose zone is UTC-05:00 the period
    "2024-W01" is labelled "Dec 31", the Sunday before the Monday
    2024-01-01 of that ISO week: [weekStart] is midnight UTC of the Monday
    and [toLocaleDateString] shows it in local time.  In UTC the label is
    "Jan 1". *)
Theorem formatWeekLabel_2024_W01_west_of_greenwich :
  formatWeekLabel (-5 * msPerHour) (VString "2024-W01") = "Dec 31" /\
  formatWeekLabel 0 (VString "2024-W01") = "Jan 1" /\
  toISOString (weekStart 2024 1) = "2024-01-01T00:00:00.000Z".
Proof. repeat split; vm_compute; reflexivity. Qed.

(** A second defect of the same function: [Date.UTC] reads the years 0 to
    99 as 1900 to 1999. *)
Example formatWeekLabel_year_0050 :
  toISOString (weekStart 50 1) = "1950-01-02T00:00:00.000Z".
Proof. vm_compute. reflexivity. Qed.

(** ** Filter state *)

Module FilterFacts.
Import Filter.

Lemma present_or_null (text : string) :
  present (or_null text) = negb (String.eqb text "").
Proof. destruct text; reflexivity. Qed.

Lemma or_null_text (text : string) : text <> "" -> or_null text = Some text.
Proof. destruct text; [congruence | reflexivity]. Qed.

(** *** The order of date texts *)

Lemma compare_append (a a' b b' : string) :
  String.length a = String.length a' ->
  String.compare (a ++ b) (a' ++ b') =
  match String.compare a a' with
  | Eq => String.compare b b'
  | c => c
  end.
Proof.
  revert a'. induction a as [|x a IH]; intros [|x' a'] L;
    try discriminate; cbn; [reflexivity|].
  destruct (Ascii.compare x x'); try reflexivity.
  apply IH. cbn in L. congruence.
Qed.

Lemma compare_digit_char (x y : Z) :
  0 <= x <= 9 -> 0 <= y <= 9 ->
  Ascii.compare (digit_char x) (digit_char y) = (x ?= y).
Proof.
  intros Hx Hy.
  assert (Cx : x = 0 \/ x = 1 \/ x = 2 \/ x = 3 \/ x = 4 \/ x = 5 \/
               x = 6 \/ x = 7 \/ x = 8 \/ x = 9) by lia.
  assert (Cy : y = 0 \/ y = 1 \/ y = 2 \/ y = 3 \/ y = 4 \/ y = 5 \/
               y = 6 \/ y = 7 \/ y = 8 \/ y = 9) by lia.
  repeat (destruct Cx as [-> | Cx]); try subst x;
    repeat (destruct Cy as [-> | Cy]); try subst y; reflexivity.
Qed.

Lemma length_append (a b : string) :
  String.length (a ++ b) = (String.length a + String.length b)%nat.
Proof. induction a as [|x a IH]; cbn; [reflexivity | now rewrite IH]. Qed.

Lemma pad_digits_length (width : nat) (n : Z) :
  String.length (pad_digits width n) = width.
Proof.
  revert n. induction width as [|w IH]; intros n; cbn; [reflexivity|].
  rewrite length_append, IH. cbn. lia.
Qed.

Lemma compare_by_digits (a b : Z) :
  (a ?= b) =
  match a / 10 ?= b / 10 with
  | Eq => a mod 10 ?= b mod 10
  | c => c
  end.
Proof.
  destruct (Z.compare_spec (a / 10) (b / 10)) as [E|L|G].
  - destruct (Z.compare_spec (a mod 10) (b mod 10)) as [E'|L'|G'].
    + apply Z.compare_eq_iff. Z.div_mod_to_equations. lia.
    + apply Z.compare_lt_iff. Z.div_mod_to_equations. lia.
    + apply Z.compare_gt_iff. Z.div_mod_to_equations. lia.
  - apply Z.compare_lt_iff. Z.div_mod_to_equations. lia.
  - apply Z.compare_gt_iff. Z.div_mod_to_equations. lia.
Qed.

(** Numbers written with the same number of digits compare as their
    texts do. *)
Lemma compare_pad_digits (width : nat) (a b : Z) :
  0 <= a < 10 ^ Z.of_nat width -> 0 <= b < 10 ^ Z.of_nat width ->
  String.compare (pad_digits width a) (pad_digits width b) = (a ?= b).
Proof.
  revert a b. induction width as [|w IH]; intros a b Ha Hb.
  - cbn in *. symmetry. apply Z.compare_eq_iff. lia.
  - cbn [pad_digits].
    rewrite compare_append by (rewrite !pad_digits_length; reflexivity).
    rewrite Nat2Z.inj_succ, Z.pow_succ_r in Ha, Hb by lia.
    rewrite IH by (Z.div_mod_to_equations; lia).
    rewrite (compare_by_digits a b).
    destruct (a / 10 ?= b / 10); try reflexivity.
    cbn [String.compare].
    rewrite compare_digit_char by (Z.div_mod_to_equations; lia).
    destruct (a mod 10 ?= b mod 10); reflexivity.
Qed.

(** The texts of two date inputs compare as year, month and day do. *)
Lemma compare_date_text (y m d y' m' d' : Z) :
  0 <= y <= 9999 -> 0 <= y' <= 9999 ->
  0 <= m <= 99 -> 0 <= m' <= 99 -> 0 <= d <= 99 -> 0 <= d' <= 99 ->
  String.compare (date_text y m d) (date_text y' m' d') =
  match y ?= y' with
  | Eq => match m ?= m' with Eq => d ?= d' | c => c end
  | c => c
  end.
Proof.
  intros Hy Hy' Hm Hm' Hd Hd'. unfold date_text.
  rewrite compare_append by (rewrite !pad_digits_length; reflexivity).
  rewrite compare_pad_digits by (cbn; lia).
  destruct (y ?= y'); try reflexivity.
  change ("-" ++ pad_digits 2 m ++ "-" ++ pad_digits 2 d)
    with (String "-" (pad_digits 2 m ++ "-" ++ pad_digits 2 d)).
  change ("-" ++ pad_digits 2 m' ++ "-" ++ pad_digits 2 d')
    with (String "-" (pad_digits 2 m' ++ "-" ++ pad_digits 2 d')).
  cbn [String.compare]. change (Ascii.compare "-" "-") with Eq. cbv iota.
  rewrite compare_append by (rewrite !pad_digits_length; reflexivity).
  rewrite compare_pad_digits by (cbn; lia).
  destruct (m ?= m'); try reflexivity.
  change ("-" ++ pad_digits 2 d) with (String "-" (pad_digits 2 d)).
  change ("-" ++ pad_digits 2 d') with (String "-" (pad_digits 2 d')).
  cbn [String.compare]. change (Ascii.compare "-" "-") with Eq. cbv iota.
  apply compare_pad_digits; cbn; lia.
Qed.

Ltac months m :=
  let Cases := fresh "Cases" in
  assert (m = 0 \/ m = 1 \/ m = 2 \/ m = 3 \/ m = 4 \/ m = 5 \/ m = 6 \/
          m = 7 \/ m = 8 \/ m = 9 \/ m = 10 \/ m = 11) as Cases by lia;
  repeat (destruct Cases as [-> | Cases]); try subst m.

Lemma MakeDay_valid (y m d : Z) :
  0 <= m < 12 ->
  MakeDay y m d =
  DayFromYear y + DaysBeforeMonth m (if isLeapYear y then 1 else 0) + d - 1.
Proof.
  intros Hm. unfold MakeDay.
  rewrite (Z.div_small m 12), (Z.mod_small m 12), Z.add_0_r by lia.
  reflexivity.
Qed.

Lemma MakeDay_in_year (y m d : Z) :
  0 <= m < 12 ->
  1 <= d <= DaysInMonth m (if isLeapYear y then 1 else 0) ->
  DayFromYear y <= MakeDay y m d < DayFromYear (y + 1).
Proof.
  intros Hm Hd. rewrite MakeDay_valid by exact Hm.
  rewrite DayFromYear_succ. unfold DaysInYear.
  destruct (isLeapYear y); months m;
    cbn [DaysBeforeMonth DaysInMonth] in *; lia.
Qed.

(** Calendar dates are in the order of their day numbers. *)
Lemma MakeDay_compare (y m d y' m' d' : Z) :
  0 <= m < 12 -> 0 <= m' < 12 ->
  1 <= d <= DaysInMonth m (if isLeapYear y then 1 else 0) ->
  1 <= d' <= DaysInMonth m' (if isLeapYear y' then 1 else 0) ->
  (MakeDay y m d ?= MakeDay y' m' d') =
  match y ?= y' with
  | Eq => match m ?= m' with Eq => d ?= d' | c => c end
  | c => c
  end.
Proof.
  intros Hm Hm' Hd Hd'.
  pose proof (MakeDay_in_year y m d Hm Hd) as B.
  pose proof (MakeDay_in_year y' m' d' Hm' Hd') as B'.
  destruct (Z.compare_spec y y') as [E|L|G].
  - subst y'. rewrite !MakeDay_valid by assumption.
    destruct (Z.compare_spec m m') as [E|L|G].
    + subst m'. destruct (Z.compare_spec d d');
        [apply Z.compare_eq_iff | apply Z.compare_lt_iff
        | apply Z.compare_gt_iff]; lia.
    + apply Z.compare_lt_iff.
      destruct (isLeapYear y); months m; months m';
        cbn [DaysBeforeMonth DaysInMonth] in *; lia.
    + apply Z.compare_gt_iff.
      destruct (isLeapYear y); months m; months m';
        cbn [DaysBeforeMonth DaysInMonth] in *; lia.
  - apply Z.compare_lt_iff.
    pose proof (DayFromYear_mono (y + 1) y' ltac:(lia)). lia.
  - apply Z.compare_gt_iff.
    pose proof (DayFromYear_mono (y' + 1) y ltac:(lia)). lia.
Qed.

(** On the texts of two calendar dates with years of four digits, the
    comparison of the apply handler is the order of the days. *)
Lemma date_text_order (y m d y' m' d' : Z) :
  0 <= y <= 9999 -> 0 <= y' <= 9999 ->
  1 <= m <= 12 -> 1 <= m' <= 12 ->
  1 <= d <= DaysInMonth (m - 1) (if isLeapYear y then 1 else 0) ->
  1 <= d' <= DaysInMonth (m' - 1) (if isLeapYear y' then 1 else 0) ->
  string_gt (date_text y m d) (date_text y' m' d') =
  (MakeDay y' (m' - 1) d' <? MakeDay y (m - 1) d).
Proof.
  intros Hy Hy' Hm Hm' Hd Hd'.
  assert (D31 : forall k l, 0 <= l <= 1 -> DaysInMonth k l <= 31).
  { intros k l Hl. unfold DaysInMonth.
    repeat match goal with
           | |- context [match ?x with _ => _ end] => destruct x
           end; lia. }
  assert (L : forall yy : Z, 0 <= (if isLeapYear yy then 1 else 0) <= 1)
    by (intros yy; destruct (isLeapYear yy); lia).
  pose proof (D31 (m - 1) _ (L y)). pose proof (D31 (m' - 1) _ (L y')).
  unfold string_gt. rewrite compare_date_text by lia.
  rewrite Z.ltb_compare.
  rewrite (Z.compare_antisym (MakeDay y (m - 1) d) (MakeDay y' (m' - 1) d')).
  rewrite (MakeDay_compare y (m - 1) d y' (m' - 1) d') by lia.
  replace (m - 1 ?= m' - 1) with (m ?= m')
    by (destruct (Z.compare_spec m m'); symmetry;
        [apply Z.compare_eq_iff | apply Z.compare_lt_iff
        | apply Z.compare_gt_iff]; lia).
  destruct (y ?= y'); try reflexivity.
  destruct (m ?= m'); try reflexivity.
  destruct (d ?= d'); reflexivity.
Qed.

Lemma date_text_order_witness :
  string_gt "2024-02-01" "2024-01-31" = true.
Proof.
  change "2024-02-01" with (date_text 2024 2 1).
  change "2024-01-31" with (date_text 2024 1 31).
  rewrite date_text_order; vm_compute; try reflexivity; split; congruence.
Defined.

(** With a year of five digits the text order is no longer the order of
    the days. *)
Example date_text_five_digit_year :
  string_gt "10000-01-01" "9999-12-31" = false.
Proof. reflexivity. Qed.





(** *** The query string *)

Lemma urldecode_urlencode_step (c : ascii) (rest : string) :
  urldecode (urlencode (String c rest)) =
  String c (urldecode (urlencode rest)).
Proof. destruct c as [[] [] [] [] [] [] [] []]; reflexivity. Qed.

Lemma urldecode_urlencode (text : string) : urldecode (urlencode text) = text.
Proof.
  induction text as [|c rest IH]; [reflexivity|].
  rewrite urldecode_urlencode_step, IH. reflexivity.
Qed.

Section QueryFacts.

Variable Date_parse : string -> option Z.
Variable tza : Z.

Lemma formatDateForQuery_invalid (value : string) (endOfDay : bool) :
  Date_parse value = None ->
  formatDateForQuery Date_parse tza value endOfDay = value.
Proof.
  intros H. unfold formatDateForQuery, normalizedTime. rewrite H.
  destruct value; reflexivity.
Qed.

Lemma present_text (bound : option string) :
  present bound = true -> bound = Some (text bound) /\ text bound <> "".
Proof.
  destruct bound as [[|c s]|]; cbn; try discriminate.
  intros _. split; [reflexivity | discriminate].
Qed.

(** The shape of the query for each of the four kinds of filter. *)
Lemma buildFilterQuery_shape (f : Filters) :
  buildFilterQuery Date_parse tza f =
  match present (start f), present (end_ f) with
  | true, true =>
      "?start_date=" ++
      urlencode (formatDateForQuery Date_parse tza (text (start f)) false) ++
      "&end_date=" ++
      urlencode (formatDateForQuery Date_parse tza (text (end_ f)) true)
  | true, false =>
      "?start_date=" ++
      urlencode (formatDateForQuery Date_parse tza (text (start f)) false)
  | false, true =>
      "?end_date=" ++
      urlencode (formatDateForQuery Date_parse tza (text (end_ f)) true)
  | false, false => ""
  end.
Proof.
  unfold buildFilterQuery, buildFilterParams.
  destruct (present (start f)), (present (end_ f)); reflexivity.
Qed.

(** C10.  A non-empty filter value that [Date] cannot parse comes back
    from [formatDateForQuery] unchanged, whichever end of the day was asked
    for, and [buildFilterQuery] passes it as it is to the [start_date] or
    [end_date] parameter: the query holds its form-encoding, from which
    decoding returns the very text. *)
Theorem unparseable_date_is_passed_verbatim (value : string) :
  value <> "" ->
  Date_parse value = None ->
  (forall endOfDay,
     formatDateForQuery Date_parse tza value endOfDay = value) /\
  (forall f, start f = Some value ->
     In ("start_date", value) (buildFilterParams Date_parse tza f)) /\
  (forall f, end_ f = Some value ->
     In ("end_date", value) (buildFilterParams Date_parse tza f)) /\
  buildFilterQuery Date_parse tza {| start := Some value; end_ := None |} =
    "?start_date=" ++ urlencode value /\
  buildFilterQuery Date_parse tza {| start := None; end_ := Some value |} =
    "?end_date=" ++ urlencode value /\
  urldecode (urlencode value) = value.
Proof.
  intros Hne Hinv.
  assert (P : present (Some value) = true)
    by (destruct value; [congruence | reflexivity]).
  split; [intros; apply formatDateForQuery_invalid; exact Hinv|].
  split; [|split; [|split; [|split]]].
  - intros f Hs. unfold buildFilterParams. rewrite Hs, P.
    cbn [text]. rewrite (formatDateForQuery_invalid value false Hinv).
    destruct (present (end_ f)); unfold push; cbn; auto.
  - intros f He. unfold buildFilterParams. rewrite He, P.
    cbn [text]. rewrite (formatDateForQuery_invalid value true Hinv).
    destruct (present (start f)); unfold push; cbn; auto.
  - rewrite buildFilterQuery_shape. cbn [start end_]. rewrite P.
    cbn [present text]. rewrite formatDateForQuery_invalid by exact Hinv.
    reflexivity.
  - rewrite buildFilterQuery_shape. cbn [start end_]. rewrite P.
    cbn [present text]. rewrite formatDateForQuery_invalid by exact Hinv.
    reflexivity.
  - apply urldecode_urlencode.
Qed.

(** Where the C3 claim holds: when the text parses to midnight UTC of day
    [day] (as the date-only form does) and the zone is at or east of
    Greenwich, the two bounds are the first and the last millisecond of
    local day [day]. *)
Lemma normalizedTime_east (value : string) (day : Z) :
  Date_parse value = Some (MakeDate day 0) ->
  0 <= tza < msPerDay ->
  exists first last,
    normalizedTime Date_parse tza value false = Some first /\
    normalizedTime Date_parse tza value true = Some last /\
    LocalTime tza first = MakeDate day 0 /\
    LocalTime tza last = MakeDate day (msPerDay - 1).
Proof.
  intros Hp Hz. unfold normalizedTime. rewrite Hp.
  eexists; eexists. split; [reflexivity|]. split; [reflexivity|].
  unfold setHours, UTC.
  rewrite (proj1 (local_day_of_utc_midnight tza day) Hz).
  unfold LocalTime, MakeTime, MakeDate, msPerDay, msPerHour, msPerMinute,
    msPerSecond. split; lia.
Qed.

(** West of Greenwich they are the first and the last millisecond of the
    day before. *)
Lemma normalizedTime_west (value : string) (day : Z) :
  Date_parse value = Some (MakeDate day 0) ->
  - msPerDay <= tza < 0 ->
  exists first last,
    normalizedTime Date_parse tza value false = Some first /\
    normalizedTime Date_parse tza value true = Some last /\
    LocalTime tza first = MakeDate (day - 1) 0 /\
    LocalTime tza last = MakeDate (day - 1) (msPerDay - 1).
Proof.
  intros Hp Hz. unfold normalizedTime. rewrite Hp.
  eexists; eexists. split; [reflexivity|]. split; [reflexivity|].
  unfold setHours, UTC.
  rewrite (proj2 (local_day_of_utc_midnight tza day) Hz).
  unfold LocalTime, MakeTime, MakeDate, msPerDay, msPerHour, msPerMinute,
    msPerSecond. split; lia.
Qed.

End QueryFacts.

(** The bounds of 2024-01-15 two hours east of Greenwich. *)
Lemma normalizedTime_east_witness :
  exists first last,
    normalizedTime Date_parse_date_only (2 * msPerHour) "2024-01-15" false =
      Some first /\
    normalizedTime Date_parse_date_only (2 * msPerHour) "2024-01-15" true =
      Some last /\
    toISOString first = "2024-01-14T22:00:00.000Z" /\
    toISOString last = "2024-01-15T21:59:59.999Z".
Proof.
  destruct (normalizedTime_east Date_parse_date_only (2 * msPerHour)
              "2024-01-15" (MakeDay 2024 0 15))
    as (first & last & F & L & _).
  - vm_compute. reflexivity.
  - vm_compute. split; congruence.
  - exists first, last. split; [exact F|]. split; [exact L|].
    vm_compute in F, L. injection F as <-. injection L as <-.
    split; vm_compute; reflexivity.
Defined.

(** C10 on a concrete text, with the date-only parser. *)
Lemma unparseable_date_is_passed_verbatim_witness :
  formatDateForQuery Date_parse_date_only 0 "next week" true = "next week" /\
  buildFilterQuery Date_parse_date_only 0
    {| start := Some "next week"; end_ := None |} = "?start_date=next+week".
Proof.
  pose proof (unparseable_date_is_passed_verbatim Date_parse_date_only 0
                "next week" ltac:(discriminate) eq_refl) as (A & _ & _ & B & _).
  split; [exact (A true) | exact B].
Defined.

Lemma Date_parse_date_only_midnight (text : string) (t : Z) :
  Date_parse_date_only text = Some t -> exists day, t = MakeDate day 0.
Proof.
  unfold Date_parse_date_only. intros H.
  repeat match type of H with
         | match ?x with _ => _ end = _ => destruct x; try discriminate
         | (if ?x then _ else _) = _ => destruct x; try discriminate
         end.
  injection H as <-. eexists. reflexivity.
Qed.

(** C3 (code defect).  A date input's text is parsed as midnight UTC, and
    [setHours] then works on the local day that instant falls in.  In a
    browser at UTC-05:00 the filter from 2024-01-15 to 2024-01-15 gives a
    range that is the local day 2024-01-14: the end bound is the last
    millisecond of January 14th, before the first millisecond of the end
    date's own day. *)
Theorem buildFilterQuery_west_of_greenwich :
  let tza := -5 * msPerHour in
  let f := {| start := Some "2024-01-15"; end_ := Some "2024-01-15" |} in
  buildFilterQuery Date_parse_date_only tza f =
    "?start_date=2024-01-14T05%3A00%3A00.000Z&end_date=2024-01-15T04%3A59%3A59.999Z" /\
  (exists last,
     normalizedTime Date_parse_date_only tza "2024-01-15" true = Some last /\
     LocalTime tza last = MakeDate (MakeDay 2024 0 14) (MakeTime 23 59 59 999) /\
     LocalTime tza last < MakeDate (MakeDay 2024 0 15) 0).
Proof.
  split; [vm_compute; reflexivity|].
  eexists. split; [vm_compute; reflexivity|].
  split; vm_compute; reflexivity.
Qed.

(** The same filter in UTC, where the range is the day itself. *)
Example buildFilterQuery_utc :
  buildFilterQuery Date_parse_date_only 0
    {| start := Some "2024-01-15"; end_ := Some "2024-01-15" |} =
  "?start_date=2024-01-15T00%3A00%3A00.000Z&end_date=2024-01-15T23%3A59%3A59.999Z".
Proof. vm_compute. reflexivity. Qed.

End FilterFacts.

(** ** The refresh cycle *)

Module RefreshFacts.
Import Refresh.

Ltac answer H m :=
  let d := fresh "d" in
  let E := fresh "E" in
  destruct (H m ltac:(discriminate)) as [d E].

Ltac answers H :=
  try answer H ActiveUsers; try answer H Requests; try answer H Adoption;
  try answer H AdoptionByDepartment; try answer H LogHours;
  try answer H RequestDurations; try answer H RequestSuccessRates;
  try answer H InactiveEmployees; try answer H ActivitiesToday;
  try answer H Satisfaction; try answer H EaseComparison.

Ltac run_cycle :=
  unfold cycle, loadDashboardData, try_catch, bind, fetch_json, render,
    emit, ret, push;
  repeat match goal with
         | E : ?net ?m = _ |- context [?net ?m] => rewrite E
         end;
  cbn [fst snd app].

Ltac same_answer :=
  match goal with
  | E : ?net ?m = Envelope true ?d, E' : ?net ?m = Envelope true ?d' |- _ =>
      rewrite E in E'; injection E' as <-
  | E : ?net ?m = Envelope false _, E' : ?net ?m = Envelope true _ |- _ =>
      rewrite E in E'; discriminate E'
  | E : ?net ?m = Rejected, E' : ?net ?m = Envelope true _ |- _ =>
      rewrite E in E'; discriminate E'
  end.

Section CycleFacts.

Variable Data : Type.
Variable network : Metric -> Response Data.


End CycleFacts.



End RefreshFacts.

(** ** Chart instances *)

Module ChartsFacts.
Import Charts.

Lemma Slot_eqb_eq (a b : Slot) : Slot_eqb a b = true <-> a = b.
Proof. destruct a, b; cbn; split; congruence. Qed.

Lemma Slot_eqb_refl (a : Slot) : Slot_eqb a a = true.
Proof. destruct a; reflexivity. Qed.

Lemma live_on_In (slot : Slot) (chart : nat) (r : Registry) :
  In chart (live_on slot r) <-> In (slot, chart) (live r).
Proof.
  unfold live_on. rewrite in_map_iff. split.
  - intros ([s c] & E & H). cbn in E. subst c.
    apply filter_In in H as [H S]. cbn in S.
    apply Slot_eqb_eq in S. subst s. exact H.
  - intros H. exists (slot, chart). split; [reflexivity|].
    apply filter_In. split; [exact H | apply Slot_eqb_refl].
Qed.

Lemma consistent_initial : consistent initial.
Proof.
  split; [intros slot; cbn; lia | intros slot chart []].
Qed.

Lemma filter_filter_length {A : Type} (f g : A -> bool) (l : list A) :
  (List.length (filter f (filter g l)) <= List.length (filter f l))%nat.
Proof.
  induction l as [|x l IH]; cbn; [lia|].
  destruct (g x) eqn:G, (f x) eqn:F; cbn; rewrite ?F; cbn; lia.
Qed.

Lemma live_on_destroy_le (slot : Slot) (chart : nat) (r : Registry) :
  (List.length (live_on slot (destroy chart r)) <=
   List.length (live_on slot r))%nat.
Proof.
  unfold live_on, destroy. cbn [live]. rewrite !length_map.
  apply filter_filter_length.
Qed.

Lemma consistent_release (slot : Slot) (r : Registry) :
  consistent r -> consistent (release_prior slot r).
Proof.
  intros [A H]. unfold release_prior.
  destruct (variable r slot) as [chart|]; [|split; assumption].
  split.
  - intros s. specialize (A s).
    pose proof (live_on_destroy_le s chart r). lia.
  - intros s c Hin. cbn in Hin. apply filter_In in Hin as [Hin _].
    cbn. exact (H s c Hin).
Qed.

(** After the [destroy()] of a render nothing is live on its canvas. *)
Lemma released (slot : Slot) (r : Registry) :
  held r -> live_on slot (release_prior slot r) = [].
Proof.
  intros H.
  destruct (live_on slot (release_prior slot r)) as [|c l] eqn:E;
    [reflexivity|exfalso].
  assert (Hin : In c (live_on slot (release_prior slot r)))
    by (rewrite E; left; reflexivity).
  apply live_on_In in Hin. unfold release_prior in Hin.
  destruct (variable r slot) as [chart|] eqn:V.
  - cbn in Hin. apply filter_In in Hin as [Hin Hne]. cbn in Hne.
    pose proof (H slot c Hin) as V'. rewrite V in V'. injection V' as ->.
    rewrite Nat.eqb_refl in Hne. discriminate.
  - pose proof (H slot c Hin) as V'. congruence.
Qed.

Lemma live_on_bind_new (slot s : Slot) (r : Registry) :
  live_on s (bind_new slot r) =
  if Slot_eqb slot s then next_id r :: live_on s r else live_on s r.
Proof.
  unfold live_on, bind_new. cbn [live filter fst].
  destruct (Slot_eqb slot s); reflexivity.
Qed.

Lemma consistent_bind_new (slot : Slot) (r : Registry) :
  consistent r -> live_on slot r = [] -> consistent (bind_new slot r).
Proof.
  intros [A H] Hnone. split.
  - intros s. rewrite live_on_bind_new.
    destruct (Slot_eqb slot s) eqn:E; [|apply A].
    apply Slot_eqb_eq in E. subst s. rewrite Hnone. cbn. lia.
  - intros s c [Hin|Hin].
    + injection Hin as <- <-. cbn. rewrite Slot_eqb_refl. reflexivity.
    + cbn. destruct (Slot_eqb s slot) eqn:E; [|exact (H s c Hin)].
      apply Slot_eqb_eq in E. subst s.
      apply live_on_In in Hin. rewrite Hnone in Hin. destruct Hin.
Qed.

Section PlanningFacts.

Variable Entry : Type.

Lemma call_unfold (c : Call Entry) (r : Registry) :
  call c r =
  if draws c then bind_new (slot_of c) (midway c r) else midway c r.
Proof.
  destruct c as [| | |data view]; try reflexivity.
  unfold call, renderPlanningCoverageChart, draws, midway, slot_of.
  destruct (trimmed data view); reflexivity.
Qed.

Lemma consistent_midway (c : Call Entry) (r : Registry) :
  consistent r -> consistent (midway c r).
Proof. apply consistent_release. Qed.

Lemma consistent_call (c : Call Entry) (r : Registry) :
  consistent r -> consistent (call c r).
Proof.
  intros C. rewrite call_unfold.
  destruct (draws c); [|apply consistent_midway; exact C].
  apply consistent_bind_new; [apply consistent_midway; exact C|].
  apply released. exact (proj2 C).
Qed.

Lemma consistent_run (calls : list (Call Entry)) (r : Registry) :
  consistent r -> consistent (run calls r).
Proof.
  revert r. induction calls as [|c rest IH]; intros r C; [exact C|].
  cbn. apply IH. apply consistent_call. exact C.
Qed.

Lemma consistent_history (calls : list (Call Entry)) (r : Registry) :
  consistent r -> Forall consistent (history calls r).
Proof.
  revert r. induction calls as [|c rest IH]; intros r C; cbn.
  - constructor; [exact C | constructor].
  - constructor; [exact C|].
    constructor; [apply consistent_midway; exact C|].
    apply IH. apply consistent_call. exact C.
Qed.


End PlanningFacts.


End ChartsFacts.

(** ** The ease comparison *)

Module EaseFacts.
Import Ease.

(** *** The average *)

Lemma value_or_zero_finite (entry : Point) :
  finite_or_absent entry ->
  exists q, value_or_zero entry = Fin q /\ (q == present_value entry)%Q.
Proof.
  unfold finite_or_absent, value_or_zero, present_value.
  destruct (value entry) as [[| | |q]|]; try contradiction; intros _.
  - destruct (Qeq_bool q 0) eqn:E.
    + exists 0%Q. split; [reflexivity|].
      apply Qeq_bool_iff in E. symmetry. exact E.
    + exists q. split; reflexivity.
  - exists 0%Q. split; reflexivity.
Qed.

Lemma fold_sum (items : list Point) (a : Q) :
  Forall finite_or_absent items ->
  exists s,
    fold_left (fun total entry => add total (value_or_zero entry)) items
      (Fin a) = Fin s /\
    (s == a + sum_present items)%Q.
Proof.
  revert a. induction items as [|entry rest IH]; intros a H;
    cbn [fold_left sum_present fold_right].
  - exists a. split; [reflexivity | ring].
  - inversion H as [|? ? He Hrest]; subst.
    destruct (value_or_zero_finite entry He) as (q & Eq & Hq).
    rewrite Eq. cbn [add].
    destruct (IH (a + q)%Q Hrest) as (s & Es & Hs).
    exists s. split; [exact Es|].
    fold (sum_present rest). rewrite Hs, Hq. ring.
Qed.

Lemma Qle_bool_comp (x y : Q) : (x == y)%Q -> Qle_bool 0 x = Qle_bool 0 y.
Proof.
  intros E. destruct (Qle_bool 0 x) eqn:X, (Qle_bool 0 y) eqn:Y; try reflexivity.
  - apply Qle_bool_iff in X. rewrite E in X. apply Qle_bool_iff in X. congruence.
  - apply Qle_bool_iff in Y. rewrite <- E in Y. apply Qle_bool_iff in Y. congruence.
Qed.

Lemma Qmake_100 (k : Z) : (k # 100 == inject_Z k * (1 # 100))%Q.
Proof. rewrite Qmake_Qdiv. field. Qed.

Lemma round2_comp (x y : Q) : (x == y)%Q -> (round2 x == round2 y)%Q.
Proof.
  intros E. unfold round2. rewrite (Qle_bool_comp x y E).
  destruct (Qle_bool 0 y).
  - assert (Qfloor (x * 100 + (1 # 2)) = Qfloor (y * 100 + (1 # 2))) as ->
      by (apply Qfloor_comp; rewrite E; reflexivity).
    reflexivity.
  - assert (Qfloor (- x * 100 + (1 # 2)) = Qfloor (- y * 100 + (1 # 2))) as ->
      by (apply Qfloor_comp; rewrite E; reflexivity).
    reflexivity.
Qed.

(** [round2 q] is a whole number of hundredths, within half a hundredth
    of [q]. *)
Lemma round2_hundredths (q : Q) : exists k, (round2 q == k # 100)%Q.
Proof.
  unfold round2. destruct (Qle_bool 0 q).
  - eexists. reflexivity.
  - exists (- Qfloor (- q * 100 + (1 # 2))). reflexivity.
Qed.

Lemma round2_close (q : Q) : (Qabs (round2 q - q) <= 1 # 200)%Q.
Proof.
  unfold round2. destruct (Qle_bool 0 q).
  - pose proof (Qfloor_le (q * 100 + (1 # 2))) as L.
    pose proof (Qlt_floor (q * 100 + (1 # 2))) as U.
    rewrite inject_Z_plus in U. change (inject_Z 1) with 1%Q in U.
    rewrite (Qmake_100 (Qfloor (q * 100 + (1 # 2)))).
    apply Qabs_Qle_condition.
    revert L U. generalize (inject_Z (Qfloor (q * 100 + (1 # 2)))).
    intros k L U. split; lra.
  - pose proof (Qfloor_le (- q * 100 + (1 # 2))) as L.
    pose proof (Qlt_floor (- q * 100 + (1 # 2))) as U.
    rewrite inject_Z_plus in U. change (inject_Z 1) with 1%Q in U.
    rewrite (Qmake_100 (Qfloor (- q * 100 + (1 # 2)))).
    apply Qabs_Qle_condition.
    revert L U. generalize (inject_Z (Qfloor (- q * 100 + (1 # 2)))).
    intros k L U. split; lra.
Qed.



(** Outside the data model: a point whose value is infinite makes the
    average infinite. *)
Example calcAverage_infinite :
  calcAverage [ {| period := "Week 1"; value := Some PosInf |} ] = PosInf.
Proof. reflexivity. Qed.

(** *** The rows that a save keeps *)

Lemma collect_row_complete (data : list Point) (row : Row) :
  complete row ->
  collect_row data row =
  Some (if kept row then (data ++ [point_of row])%list else data).
Proof.
  intros [P V]. unfold collect_row, kept, point_of, push.
  destruct (period_input row) as [period|]; [|congruence].
  destruct (value_input row) as [text|]; [|congruence].
  cbn [input_text].
  destruct period; cbn [String.eqb negb andb]; [reflexivity|].
  destruct (isNaN (parseFloat text)); reflexivity.
Qed.

Lemma collect_from_complete (rows : list Row) (data : list Point) :
  Forall complete rows ->
  collect_from data rows =
  Some (data ++ map point_of (filter kept rows))%list.
Proof.
  revert data. induction rows as [|row rest IH]; intros data H; cbn.
  - rewrite app_nil_r. reflexivity.
  - inversion H as [|? ? Hrow Hrest]; subst.
    rewrite (collect_row_complete data row Hrow), (IH _ Hrest).
    destruct (kept row); cbn.
    + rewrite <- app_assoc. reflexivity.
    + reflexivity.
Qed.

Lemma collect_filter (rows : list Row) :
  Forall complete rows ->
  collect rows = Some (map point_of (filter kept rows)).
Proof. intros H. unfold collect. rewrite collect_from_complete by exact H. reflexivity. Qed.

(** A scan stops with the TypeError at the first row that lacks an
    input. *)
Lemma collect_from_incomplete (rows : list Row) (data : list Point) :
  Exists (fun row => period_input row = None) rows ->
  collect_from data rows = None.
Proof.
  revert data. induction rows as [|row rest IH]; intros data H.
  - inversion H.
  - cbn. inversion H as [? ? Hrow|? ? Hrest]; subst.
    + unfold collect_row. rewrite Hrow. reflexivity.
    + destruct (collect_row data row); [apply IH; exact Hrest | reflexivity].
Qed.

Lemma span_digits_nil (cs : list ascii) :
  fst (span_digits cs) = [] <->
  match cs with c :: _ => is_digit c = false | [] => True end.
Proof.
  destruct cs as [|c rest]; cbn; [tauto|]. unfold is_digit.
  destruct (digit c); [|cbn; tauto].
  destruct (span_digits rest). cbn. split; congruence.
Qed.

Lemma span_digits_rest (cs : list ascii) :
  fst (span_digits cs) = [] -> snd (span_digits cs) = cs.
Proof.
  destruct cs as [|c rest]; cbn; [reflexivity|].
  destruct (digit c); [|reflexivity].
  destruct (span_digits rest). cbn. discriminate.
Qed.

Lemma isNaN_parseFloat (text : string) :
  isNaN (parseFloat text) = negb (numeric_prefix text).
Proof.
  unfold parseFloat, numeric_prefix.
  destruct (take_sign (skip_spaces (list_ascii_of_string text)))
    as [negative cs]. cbn [snd].
  destruct (starts_with (list_ascii_of_string "Infinity") cs);
    [destruct negative; reflexivity|].
  cbn [orb].
  destruct (span_digits cs) as [int_part after_int] eqn:Ei.
  pose proof (span_digits_nil cs) as Ni. rewrite Ei in Ni. cbn [fst] in Ni.
  pose proof (span_digits_rest cs) as Ri. rewrite Ei in Ri. cbn [fst snd] in Ri.
  destruct int_part as [|d ds].
  - specialize (Ri eq_refl). subst after_int.
    destruct cs as [|c rest]; [reflexivity|].
    rewrite (proj1 Ni eq_refl). cbn [orb].
    destruct (Ascii.eqb c "."); cbn [andb]; [|reflexivity].
    destruct (span_digits rest) as [frac_part after_frac] eqn:Ef.
    pose proof (span_digits_nil rest) as Nf. rewrite Ef in Nf. cbn [fst] in Nf.
    destruct frac_part as [|f fs]; cbn [app].
    + destruct rest as [|r rest']; [reflexivity|].
      rewrite (proj1 Nf eq_refl). reflexivity.
    + destruct rest as [|r rest'].
      * cbn in Ef. discriminate.
      * destruct (is_digit r) eqn:Dr.
        -- match goal with
           | |- isNaN (if ?b then _ else _) = _ => destruct b
           end; [destruct negative|]; reflexivity.
        -- destruct Nf as [_ Nf]. discriminate (Nf eq_refl).
  - assert (Dc : match cs with c :: _ => is_digit c = true | [] => False end).
    { destruct cs as [|c rest]; [cbn in Ei; discriminate|].
      destruct (is_digit c) eqn:D; [reflexivity|].
      destruct Ni as [_ Ni]. discriminate (Ni eq_refl). }
    destruct cs as [|c rest]; [contradiction|]. rewrite Dc. cbn [orb negb].
    try match goal with
    | |- isNaN (let (_, _) := ?p in _) = _ => destruct p as [frac_part after_frac]
    end.
    cbn [app].
    match goal with
    | |- isNaN (if ?b then _ else _) = _ => destruct b
    end; [destruct negative|]; reflexivity.
Qed.

Lemma kept_iff (row : Row) :
  complete row ->
  (kept row = true <->
   input_text (period_input row) <> "" /\
   parseFloat (input_text (value_input row)) <> NaN).
Proof.
  intros [P V]. unfold kept.
  destruct (period_input row) as [period|]; [|congruence].
  destruct (value_input row) as [text|]; [|congruence].
  cbn [input_text].
  rewrite andb_true_iff, !negb_true_iff. split.
  - intros [Hp Hv]. split.
    + intros E. rewrite E in Hp. discriminate.
    + intros E. rewrite E in Hv. discriminate.
  - intros [Hp Hv]. split.
    + destruct period; [congruence | reflexivity].
    + destruct (parseFloat text); [congruence | | |]; reflexivity.
Qed.

Section SaveFacts.

Variable server : EaseData -> Reply.


(** What a save does for each answer of the server, once the scans have
    built [body]. *)
Lemma saveEaseData_answered (p : Page) (body : EaseData) :
  submitted p = Some body ->
  saveEaseData server p =
  match server body with
  | Envelope true _ =>
      log [Alert "Ease comparison data saved successfully!"]
        (hideEaseEditor
           (renderEaseComparisonChart body
              (set_easeData body (log [Post body] p))))
  | Envelope false error =>
      log [Alert ("Failed to save ease comparison data: " ++ error)]
        (log [Post body] p)
  | Rejected =>
      log [ConsoleError; Alert "Error saving ease comparison data"]
        (log [Post body] p)
  end.
Proof.
  unfold submitted, saveEaseData.
  destruct (collect (odooRows (editor p))) as [odooData|]; [|discriminate].
  destruct (collect (nasmaRows (editor p))) as [nasmaData|]; [|discriminate].
  intros E. injection E as <-. reflexivity.
Qed.

Lemma saveEaseData_thrown (p : Page) :
  submitted p = None -> saveEaseData server p = log [UncaughtTypeError] p.
Proof.
  unfold submitted, saveEaseData.
  destruct (collect (odooRows (editor p))) as [odooData|]; [|reflexivity].
  destruct (collect (nasmaRows (editor p))) as [nasmaData|];
    [discriminate | reflexivity].
Qed.

(** C5.  Let the scans of the editor have built the object [body] that
    is posted.  When the POST answers with a success envelope, [easeData]
    becomes that very object, the chart is drawn again from it and the
    editor is closed.  When it answers with a failure envelope, or the
    request rejects, [easeData], the chart and the editor stay as they
    were and an alert tells the failure.  A save closes the editor only on
    success. *)
Theorem saveEaseData_commits_on_success_only (p : Page) (body : EaseData) :
  submitted p = Some body ->
  let p' := saveEaseData server p in
  (forall error, server body = Envelope true error ->
     easeData p' = body /\
     editorOpen p' = false /\
     charts p' = Charts.renderEaseComparisonChart (charts p) /\
     effects p' =
       (effects p ++
        [Post body;
         DrawChart (calcAverage (odoo body)) (calcAverage (nasma body));
         Alert "Ease comparison data saved successfully!"])%list) /\
  (forall error, server body = Envelope false error ->
     easeData p' = easeData p /\
     editorOpen p' = editorOpen p /\
     charts p' = charts p /\
     effects p' =
       (effects p ++
        [Post body;
         Alert ("Failed to save ease comparison data: " ++ error)])%list) /\
  (server body = Rejected ->
     easeData p' = easeData p /\
     editorOpen p' = editorOpen p /\
     charts p' = charts p /\
     effects p' =
       (effects p ++
        [Post body; ConsoleError;
         Alert "Error saving ease comparison data"])%list) /\
  (editorOpen p = true -> editorOpen p' = false ->
     exists error, server body = Envelope true error) /\
  editor p' = editor p.
Proof.
  intros S p'. subst p'. rewrite (saveEaseData_answered p body S).
  destruct (server body) as [|[] error] eqn:E;
    unfold log, hideEaseEditor, renderEaseComparisonChart, set_easeData,
      push;
    cbn [effects easeData editor editorOpen charts];
    rewrite <- ?app_assoc; cbn [app];
    repeat split; try congruence; try discriminate;
    try (intros; congruence).
  intros _ _. exists error. reflexivity.
Qed.


End SaveFacts.


(** C5 on the three answers to a save of [editing]. *)
Lemma saveEaseData_commits_on_success_only_witness :
  let body :=
    {| odoo := [ {| period := "Week 3"; value := Some (Fin (75 # 10)) |} ];
       nasma := [] |} in
  (easeData (saveEaseData accepting editing) = body /\
   editorOpen (saveEaseData accepting editing) = false) /\
  (easeData (saveEaseData refusing editing) = easeData editing /\
   editorOpen (saveEaseData refusing editing) = true) /\
  (easeData (saveEaseData unreachable editing) = easeData editing /\
   editorOpen (saveEaseData unreachable editing) = true).
Proof.
  intros body.
  assert (S : submitted editing = Some body) by (vm_compute; reflexivity).
  split; [|split].
  - destruct (saveEaseData_commits_on_success_only accepting editing body S)
      as (A & _).
    destruct (A "" eq_refl) as (B & C & _). split; assumption.
  - destruct (saveEaseData_commits_on_success_only refusing editing body S)
      as (_ & F & _).
    destruct (F "denied" eq_refl) as (B & C & _). split; assumption.
  - destruct (saveEaseData_commits_on_success_only unreachable editing body S)
      as (_ & _ & R & _).
    destruct (R eq_refl) as (B & C & _). split; assumption.
Defined.



End EaseFacts.

(** ** The filter bar in use *)

Module FilterFlowFacts.
Import Filter FilterFlow.

Lemma or_null_not_empty (text : string) : or_null text <> Some "".
Proof. destruct text; discriminate. Qed.

Lemma ordered_act (a : action) (p : Page) :
  ordered (dashboardFilters p) -> ordered (dashboardFilters (act a p)).
Proof.
  intros O. destruct a as [text|text| |]; cbn [act dashboardFilters];
    try exact O.
  - unfold applyClick.
    destruct (present (or_null (startInput p)) &&
              present (or_null (endInput p)) &&
              value_gt (or_null (startInput p)) (or_null (endInput p)))
      eqn:G; cbn [dashboardFilters do_effects]; [exact O|].
    split; [apply or_null_not_empty|]. split; [apply or_null_not_empty|].
    cbn [start end_]. intros s e Hs He. rewrite Hs, He in G.
    cbn [value_gt] in G.
    assert (present (Some s) = true).
    { destruct s; [|reflexivity]. rewrite <- Hs.
      exfalso. exact (or_null_not_empty _ Hs). }
    assert (present (Some e) = true).
    { destruct e; [|reflexivity].
      exfalso. exact (or_null_not_empty _ He). }
    rewrite H, H0 in G. exact G.
  - split; [discriminate|]. split; [discriminate|].
    cbn. intros s e Hs. discriminate.
Qed.

(** Whatever the user types and clicks, the stored filter never has its
    start after its end, and never holds an empty text as a bound. *)
Theorem filters_stay_ordered (actions : list action) :
  ordered (dashboardFilters (session actions loaded)).
Proof.
  assert (G : forall p, ordered (dashboardFilters p) ->
                        ordered (dashboardFilters (session actions p))).
  { induction actions as [|a rest IH]; intros p O; [exact O|].
    cbn. apply IH. apply ordered_act. exact O. }
  apply G. split; [discriminate|]. split; [discriminate|].
  cbn. intros s e Hs. discriminate.
Qed.

Lemma count_app {A : Type} (f : A -> bool) (l m : list A) :
  List.length (filter f (l ++ m)) =
  (List.length (filter f l) + List.length (filter f m))%nat.
Proof. rewrite filter_app, length_app. reflexivity. Qed.

Lemma act_counts (a : action) (p : Page) :
  (refreshes (act a p) + alerts (act a p) =
   refreshes p + alerts p + clicks [a])%nat.
Proof.
  unfold refreshes, alerts, clicks.
  destruct a as [text|text| |]; cbn [act effects filter List.length];
    try lia.
  - unfold applyClick.
    destruct (present (or_null (startInput p)) &&
              present (or_null (endInput p)) &&
              value_gt (or_null (startInput p)) (or_null (endInput p)));
      cbn [effects do_effects]; rewrite !count_app; cbn; lia.
  - unfold clearClick. cbn [effects]. rewrite !count_app. cbn. lia.
Qed.

(** Every click on a button either starts one refresh or raises one
    alert, never both and never neither; editing an input does neither. *)
Theorem each_click_refreshes_or_alerts (actions : list action) :
  (refreshes (session actions loaded) + alerts (session actions loaded) =
   clicks actions)%nat.
Proof.
  assert (G : forall p,
    (refreshes (session actions p) + alerts (session actions p) =
     refreshes p + alerts p + clicks actions)%nat).
  { induction actions as [|a rest IH]; intros p.
    - cbn. unfold clicks. cbn. lia.
    - cbn [session fold_left]. fold (session rest (act a p)).
      rewrite IH, act_counts. unfold clicks. cbn [filter].
      destruct a; cbn; lia. }
  rewrite G. reflexivity.
Qed.

Section QueryAfterClick.

Variable Date_parse : string -> option Z.
Variable tza : Z.

(** After an accepted apply the query names [start_date] exactly when the
    start input holds text and [end_date] exactly when the end input does,
    in this order; after a clear it is empty. *)
Theorem query_follows_inputs (p : Page) :
  (value_gt (or_null (startInput p)) (or_null (endInput p)) = false ->
   map fst (buildFilterParams Date_parse tza (dashboardFilters (applyClick p)))
   = ((if String.eqb (startInput p) "" then [] else ["start_date"]) ++
      (if String.eqb (endInput p) "" then [] else ["end_date"]))%list) /\
  buildFilterQuery Date_parse tza (dashboardFilters (clearClick p)) = "".
Proof.
  split; [|reflexivity].
  intros G. unfold applyClick. rewrite G, !andb_false_r.
  cbn [dashboardFilters]. unfold buildFilterParams. cbn [start end_].
  destruct (startInput p) as [|a s]; destruct (endInput p) as [|b e];
    reflexivity.
Qed.

End QueryAfterClick.

Lemma query_follows_inputs_witness :
  map fst
    (buildFilterParams Date_parse_date_only 0
       (dashboardFilters
          (applyClick
             {| startInput := ""; endInput := "2024-01-31";
                dashboardFilters := {| start := None; end_ := None |};
                effects := [] |}))) = ["end_date"].
Proof.
  exact (proj1 (query_follows_inputs Date_parse_date_only 0
                  {| startInput := ""; endInput := "2024-01-31";
                     dashboardFilters := {| start := None; end_ := None |};
                     effects := [] |}) eq_refl).
Defined.

End FilterFlowFacts.

(** ** Percent formatting *)

Module PercentFacts.
Import Percent.

Lemma no_point_append (a b : string) :
  no_point (a ++ b) = no_point a && no_point b.
Proof.
  induction a as [|c a IH]; cbn; [reflexivity|].
  rewrite IH, andb_assoc. reflexivity.
Qed.

Lemma strip_no_point (text : string) :
  no_point text = true -> strip_zero_fraction text = text.
Proof.
  induction text as [|c rest IH]; cbn; [reflexivity|].
  intros H. apply andb_true_iff in H as [Hc Hr].
  apply negb_true_iff in Hc. rewrite Hc. cbn. rewrite (IH Hr). reflexivity.
Qed.

Lemma strip_append (a b : string) :
  no_point a = true ->
  strip_zero_fraction (a ++ b) = a ++ strip_zero_fraction b.
Proof.
  induction a as [|c a IH]; cbn; [reflexivity|].
  intros H. apply andb_true_iff in H as [Hc Hr].
  apply negb_true_iff in Hc. rewrite Hc. cbn. rewrite (IH Hr). reflexivity.
Qed.

Lemma no_point_uint (u : Decimal.uint) :
  no_point (NilEmpty.string_of_uint u) = true.
Proof. induction u; cbn; auto. Qed.

Lemma no_point_string_of_Z (z : Z) : 0 <= z -> no_point (string_of_Z z) = true.
Proof.
  intros H. unfold string_of_Z. destruct z as [|p|p]; try lia.
  - reflexivity.
  - cbn [Z.to_int NilZero.string_of_int]. unfold NilZero.string_of_uint.
    destruct (Pos.to_uint p) eqn:E; try reflexivity;
      rewrite <- E; apply no_point_uint.
Qed.

Lemma digit_char_cases (d : Z) :
  0 <= d <= 9 ->
  Ascii.eqb (digit_char d) "0" = (d =? 0) /\
  Ascii.eqb (digit_char d) "." = false.
Proof.
  intros H.
  assert (C : d = 0 \/ d = 1 \/ d = 2 \/ d = 3 \/ d = 4 \/ d = 5 \/
              d = 6 \/ d = 7 \/ d = 8 \/ d = 9) by lia.
  repeat (destruct C as [-> | C]); try subst d; split; reflexivity.
Qed.

Lemma no_point_pad_digits (width : nat) (n : Z) :
  no_point (pad_digits width n) = true.
Proof.
  revert n. induction width as [|w IH]; intros n; cbn; [reflexivity|].
  rewrite no_point_append, IH. cbn.
  rewrite (proj2 (digit_char_cases (n mod 10) ltac:(Z.div_mod_to_equations; lia))).
  reflexivity.
Qed.

Lemma all_zeros_append (a b : string) :
  all_zeros (a ++ b) = all_zeros a && all_zeros b.
Proof.
  induction a as [|c a IH]; cbn; [reflexivity|].
  rewrite IH, andb_assoc. reflexivity.
Qed.

Lemma mod_ten_times (m P : Z) :
  0 < P ->
  (m mod (P * 10) =? 0) = ((m / 10) mod P =? 0) && (m mod 10 =? 0).
Proof.
  intros HP.
  destruct (Z.eqb_spec (m mod (P * 10)) 0) as [E|E].
  - apply Z.mod_divide in E; [|lia]. destruct E as [k E].
    assert (m mod 10 = 0).
    { subst m. replace (k * (P * 10)) with (k * P * 10) by ring.
      apply Z.mod_mul. lia. }
    assert (m / 10 = k * P).
    { subst m. replace (k * (P * 10)) with (k * P * 10) by ring.
      apply Z.div_mul. lia. }
    rewrite H, H0, Z.mod_mul by lia. reflexivity.
  - destruct (Z.eqb_spec ((m / 10) mod P) 0) as [A|A]; [|reflexivity].
    destruct (Z.eqb_spec (m mod 10) 0) as [B|B]; [|reflexivity].
    exfalso. apply E.
    apply Z.mod_divide in A; [|lia]. destruct A as [k A].
    apply Z.mod_divide; [lia|]. exists k.
    pose proof (Z.div_mod m 10 ltac:(lia)). rewrite A, B in H. lia.
Qed.

Lemma all_zeros_pad_digits (width : nat) (n : Z) :
  all_zeros (pad_digits width n) = (n mod 10 ^ Z.of_nat width =? 0).
Proof.
  revert n. induction width as [|w IH]; intros n.
  - cbn. rewrite Z.mod_1_r. reflexivity.
  - cbn [pad_digits]. rewrite all_zeros_append, IH. cbn [all_zeros].
    rewrite (proj1 (digit_char_cases (n mod 10) ltac:(Z.div_mod_to_equations; lia))).
    rewrite andb_true_r.
    rewrite Nat2Z.inj_succ, Z.pow_succ_r by lia.
    rewrite (Z.mul_comm 10). symmetry. apply mod_ten_times.
    apply Z.pow_pos_nonneg; lia.
Qed.

Lemma pad_digits_nonempty (width : nat) (n : Z) :
  String.eqb (pad_digits (S width) n) "" = false.
Proof.
  cbn [pad_digits]. destruct (pad_digits width (n / 10)); reflexivity.
Qed.



End PercentFacts.

(** ** Date labels and the filter description *)

Module LabelsFacts.
Import Filter Labels.

Lemma local_of_utc (tza t : Z) : LocalTime tza (UTC tza t) = t.
Proof. unfold LocalTime, UTC. lia. Qed.

Section ParsingFacts.

Variable Date_parse : string -> option Z.
Variable tza : Z.

(** A month label does not depend on the zone of the browser: the text is
    read as local midnight of the first of the month and shown in local
    time, so the label is that month and the last two digits of that year
    in every zone.  An empty period gives the empty label, and a period
    that does not parse is shown as it is. *)
Theorem formatMonthShort_any_zone (value : string) (y m : Z) :
  value <> "" ->
  0 <= m < 12 ->
  Date_parse (value ++ "-01T00:00:00") =
    Some (UTC tza (MakeDate (MakeDay y m 1) 0)) ->
  formatMonthShort Date_parse tza value =
    month_short m ++ " " ++ pad_digits 2 (y mod 100).
Proof.
  intros Hv Hm Hp. unfold formatMonthShort. rewrite Hp.
  destruct value as [|c v]; [congruence|].
  unfold toLocaleDateString_month_year. rewrite local_of_utc.
  destruct (civil_roundtrip y m 1 0) as (Y & Mo & _).
  - exact Hm.
  - destruct (isLeapYear y);
      assert (C : m = 0 \/ m = 1 \/ m = 2 \/ m = 3 \/ m = 4 \/ m = 5 \/
                  m = 6 \/ m = 7 \/ m = 8 \/ m = 9 \/ m = 10 \/ m = 11) by lia;
      repeat (destruct C as [-> | C]); try subst m; cbn; lia.
  - unfold msPerDay. lia.
  - rewrite Y, Mo. reflexivity.
Qed.

Lemma formatMonthShort_unparsed (value : string) :
  Date_parse (value ++ "-01T00:00:00") = None ->
  formatMonthShort Date_parse tza value = value.
Proof.
  intros H. unfold formatMonthShort. rewrite H. destruct value; reflexivity.
Qed.

Lemma toLocaleDateString_by_day (a b : Z) :
  Day (LocalTime tza a) = Day (LocalTime tza b) ->
  toLocaleDateString tza a = toLocaleDateString tza b.
Proof.
  intros E. unfold toLocaleDateString, DateFromTime, MonthFromTime,
    DayWithinYear, InLeapYear, YearFromTime. rewrite E. reflexivity.
Qed.

(** The label of a filter date.  The text of a date input is read as
    midnight UTC of its day and shown in local time: at or east of
    Greenwich the label is that day, west of Greenwich it is the day
    before. *)
Theorem formatDateLabel_by_zone (value : string) (day : Z) :
  value <> "" ->
  Date_parse value = Some (MakeDate day 0) ->
  (0 <= tza < msPerDay ->
   formatDateLabel Date_parse tza value =
     toLocaleDateString 0 (MakeDate day 0)) /\
  (- msPerDay <= tza < 0 ->
   formatDateLabel Date_parse tza value =
     toLocaleDateString 0 (MakeDate (day - 1) 0)).
Proof.
  intros Hv Hp.
  assert (F : formatDateLabel Date_parse tza value =
              toLocaleDateString tza (MakeDate day 0)).
  { unfold formatDateLabel. rewrite Hp. destruct value; [congruence|].
    reflexivity. }
  assert (L : forall d t, Day (LocalTime tza t) = d ->
              toLocaleDateString tza t = toLocaleDateString 0 (MakeDate d 0)).
  { intros d t E. unfold toLocaleDateString, DateFromTime, MonthFromTime,
      DayWithinYear, InLeapYear, YearFromTime.
    rewrite E.
    replace (Day (LocalTime 0 (MakeDate d 0))) with d; [reflexivity|].
    unfold LocalTime. rewrite Z.add_0_r.
    symmetry. apply Day_MakeDate. unfold msPerDay. lia. }
  rewrite F. split; intros Hz; apply L.
  - exact (proj1 (local_day_of_utc_midnight tza day) Hz).
  - exact (proj2 (local_day_of_utc_midnight tza day) Hz).
Qed.

Lemma has_blank_append (a b : string) :
  has_blank (a ++ b) = has_blank a || has_blank b.
Proof.
  induction a as [|c a IH]; cbn; [reflexivity|].
  rewrite IH, orb_assoc. reflexivity.
Qed.

(** The range text, which captions the activities table, is "today"
    exactly when no filter bound is set, and the summary is "Showing all
    available data" exactly then. *)
Theorem today_means_unfiltered (f : Filters) :
  (snd (getFilterDescriptions Date_parse tza f) = "today" <->
   present (start f) = false /\ present (end_ f) = false) /\
  (fst (getFilterDescriptions Date_parse tza f) =
     "Showing all available data" <->
   present (start f) = false /\ present (end_ f) = false).
Proof.
  unfold getFilterDescriptions.
  destruct (present (start f)) eqn:S, (present (end_ f)) eqn:E;
    cbn [negb andb fst snd]; split; split;
    try (intros [? ?]; discriminate); try (intros _; split; reflexivity);
    try reflexivity; intros H; exfalso.
  - assert (B : has_blank "today" = true)
      by (rewrite <- H, !has_blank_append; cbn; apply orb_true_r).
    discriminate B.
  - cbn in H. discriminate H.
  - cbn in H. discriminate H.
  - cbn in H. discriminate H.
  - cbn in H. discriminate H.
  - cbn in H. discriminate H.
Qed.

End ParsingFacts.

Lemma formatMonthShort_any_zone_witness :
  formatMonthShort (Date_parse_local (-5 * msPerHour)) (-5 * msPerHour)
    "2024-01" = "Jan 24" /\
  formatMonthShort (Date_parse_local (9 * msPerHour)) (9 * msPerHour)
    "2024-01" = "Jan 24".
Proof.
  split.
  - apply (formatMonthShort_any_zone (Date_parse_local (-5 * msPerHour))
             (-5 * msPerHour) "2024-01" 2024 0);
      [discriminate | lia | vm_compute; reflexivity].
  - apply (formatMonthShort_any_zone (Date_parse_local (9 * msPerHour))
             (9 * msPerHour) "2024-01" 2024 0);
      [discriminate | lia | vm_compute; reflexivity].
Defined.

Lemma formatDateLabel_by_zone_witness :
  formatDateLabel Date_parse_date_only (2 * msPerHour) "2024-01-15" =
    "1/15/2024" /\
  formatDateLabel Date_parse_date_only (-5 * msPerHour) "2024-01-15" =
    "1/14/2024".
Proof.
  split.
  - rewrite (proj1 (formatDateLabel_by_zone Date_parse_date_only
               (2 * msPerHour) "2024-01-15" (MakeDay 2024 0 15)
               ltac:(discriminate) ltac:(vm_compute; reflexivity)));
      vm_compute; [reflexivity | split; congruence].
  - rewrite (proj2 (formatDateLabel_by_zone Date_parse_date_only
               (-5 * msPerHour) "2024-01-15" (MakeDay 2024 0 15)
               ltac:(discriminate) ltac:(vm_compute; reflexivity)));
      vm_compute; [reflexivity | split; congruence].
Defined.

End LabelsFacts.

(** ** The card layout *)

Module LayoutFacts.
Import Layout.

(** Persisting a card, whose id is not [__proto__], writes its entry
    under its id and leaves the entries of the other cards as they were,
    whatever the key held before (nothing, a layout, or text that does not
    parse). *)
Theorem persist_then_lookup (card : Card) (item : option Text) (key : string) :
  id card <> "" ->
  id card <> "__proto__" ->
  lookup key (getSavedCardLayout (persistCardState card (Holding item))) =
  if String.eqb (id card) key then Some (entry_of card)
  else lookup key (getSavedCardLayout (Holding item)).
Proof.
  intros Hid Hproto. unfold persistCardState.
  destruct (id card) as [|c s] eqn:E; [congruence|].
  unfold assign. apply String.eqb_neq in Hproto. rewrite Hproto.
  cbn [getSavedCardLayout lookup]. reflexivity.
Qed.

Lemma persist_then_lookup_witness :
  lookup "card-adoption"
    (getSavedCardLayout (persistCardState sample_card (Holding (Some Garbage))))
  = Some {| x := Some 40%Q; y := Some 0%Q;
            width := "320px"; height := "220px" |} /\
  lookup "card-requests"
    (getSavedCardLayout (persistCardState sample_card (Holding (Some Garbage))))
  = None.
Proof.
  split.
  - rewrite (persist_then_lookup sample_card (Some Garbage) "card-adoption"
               ltac:(discriminate) ltac:(discriminate)).
    vm_compute. reflexivity.
  - rewrite (persist_then_lookup sample_card (Some Garbage) "card-requests"
               ltac:(discriminate) ltac:(discriminate)).
    reflexivity.
Defined.

Lemma size_or_box_nonempty (style : string) (box : Z) :
  size_or_box style box <> "".
Proof.
  unfold size_or_box. destruct style; [|discriminate].
  apply append_nonempty. discriminate.
Qed.

Lemma size_or_box_fixed (style : string) (box box' : Z) :
  style <> "" -> size_or_box style box' = style.
Proof. destruct style; [congruence | reflexivity]. Qed.

Lemma finite_entry (attribute : option number) :
  attribute_or_zero attribute <> PosInf ->
  attribute_or_zero attribute <> NegInf ->
  exists q, attribute_or_zero attribute = Fin q /\
            json_number (attribute_or_zero attribute) = Some q.
Proof.
  destruct attribute as [[| | |q]|]; cbn; try congruence;
    intros _ _; eexists; split; reflexivity.
Qed.

(** Applying an entry with both coordinates and both sizes to a card
    makes the card one whose own entry is that entry. *)
Lemma apply_then_entry (card : Card) (entry : Saved) (qx qy : Q) :
  x entry = Some qx -> y entry = Some qy ->
  width entry <> "" -> height entry <> "" ->
  let applied := applyCardState card entry in
  data_x applied = Some (Fin qx) /\
  data_y applied = Some (Fin qy) /\
  transform applied = Some (Fin qx, Fin qy) /\
  style_width applied = width entry /\
  style_height applied = height entry /\
  entry_of applied = entry.
Proof.
  destruct entry as [ex ey w h]. cbn [x y width height].
  intros -> -> Hw Hh. destruct w as [|a w]; [congruence|].
  destruct h as [|b h]; [congruence|].
  repeat split.
Qed.

Lemma lookup_own_entry (card : Card) (item : option Text) :
  id card <> "" ->
  id card <> "__proto__" ->
  lookup (id card)
    (getSavedCardLayout (persistCardState card (Holding item))) =
  Some (entry_of card).
Proof.
  intros Hid Hproto. unfold persistCardState.
  destruct (id card) as [|c s] eqn:E; [congruence|].
  unfold assign. apply String.eqb_neq in Hproto. rewrite Hproto.
  cbn [getSavedCardLayout lookup]. rewrite String.eqb_refl.
  reflexivity.
Qed.

(** Persisting and reloading reproduces a card's position and size.  Let
    a card whose coordinates are finite, and whose id is not [__proto__],
    be persisted.  On the next load,
    in edit mode or not, the card of that id, whatever its attributes and
    size in the fresh page, is given the persisted coordinates, transform
    and size, and persisting it again writes the same entry. *)
Theorem reload_reproduces (card fresh : Card) (item : option Text)
    (isAdminView : bool) :
  id card <> "" ->
  id card <> "__proto__" ->
  id fresh = id card ->
  attribute_or_zero (data_x card) <> PosInf ->
  attribute_or_zero (data_x card) <> NegInf ->
  attribute_or_zero (data_y card) <> PosInf ->
  attribute_or_zero (data_y card) <> NegInf ->
  let s := persistCardState card (Holding item) in
  exists reloaded,
    fst (initCardInteractions true isAdminView s [fresh]) = [reloaded] /\
    data_x reloaded = Some (attribute_or_zero (data_x card)) /\
    data_y reloaded = Some (attribute_or_zero (data_y card)) /\
    transform reloaded =
      Some (attribute_or_zero (data_x card), attribute_or_zero (data_y card)) /\
    style_width reloaded = width (entry_of card) /\
    style_height reloaded = height (entry_of card) /\
    entry_of reloaded = entry_of card.
Proof.
  intros Hid Hproto Hfresh X1 X2 Y1 Y2 s.
  pose proof (lookup_own_entry card item Hid Hproto) as L. fold s in L.
  destruct (finite_entry _ X1 X2) as (qx & Ax & Jx).
  destruct (finite_entry _ Y1 Y2) as (qy & Ay & Jy).
  eexists. split.
  - unfold initCardInteractions. cbn [fst map]. unfold restore.
    cbn [id]. rewrite Hfresh, L. reflexivity.
  - rewrite Ax, Ay.
    apply apply_then_entry.
    + unfold entry_of. cbn [x]. exact Jx.
    + unfold entry_of. cbn [y]. exact Jy.
    + apply size_or_box_nonempty.
    + apply size_or_box_nonempty.
Qed.

Lemma reload_reproduces_witness :
  exists reloaded,
    fst (initCardInteractions true false
           (persistCardState sample_card (Holding None))
           [cleared sample_card]) = [reloaded] /\
    transform reloaded = Some (Fin 40, Fin 0) /\
    style_width reloaded = "320px".
Proof.
  destruct (reload_reproduces sample_card (cleared sample_card) None false)
    as (reloaded & A & _ & _ & T & W & _);
    try discriminate; try reflexivity.
  exists reloaded. split; [exact A|]. split; [exact T|].
  rewrite W. vm_compute. reflexivity.
Defined.

(** A coordinate that is not finite does not survive the reload: it is
    stored as null and restored as 0. *)
Example infinite_coordinate_is_lost :
  let card :=
    {| id := "card"; data_x := Some PosInf; data_y := None;
       style_width := ""; style_height := ""; transform := None;
       offsetWidth := 10; offsetHeight := 10 |} in
  map data_x
    (fst (initCardInteractions true true
            (persistCardState card (Holding None)) [card])) =
  [Some (Fin 0)].
Proof. reflexivity. Qed.

(** Reset.  Afterwards no card has an entry in the stored layout, every
    card is back to the stylesheet (no transform, no width or height of
    its own, no coordinates), and the cards are the same cards in the same
    order; the cards are reset even when the storage cannot be used.  A
    load after a reset moves no card, provided that no id is a name of
    [Object.prototype]. *)
Theorem reset_clears_everything (s : Storage) (cards : list Card)
    (isAdminView : bool) :
  let after := resetCardLayout s cards in
  (forall key, lookup key (getSavedCardLayout (fst after)) = None) /\
  map id (snd after) = map id cards /\
  Forall (fun card =>
            transform card = None /\ style_width card = "" /\
            style_height card = "" /\ data_x card = None /\
            data_y card = None) (snd after) /\
  (Forall (fun card => inherited (id card) = false) cards ->
   Forall (fun card => transform card = None /\ style_width card = "" /\
                       style_height card = "")
     (fst (initCardInteractions true isAdminView (fst after) (snd after)))).
Proof.
  cbn zeta. unfold resetCardLayout. cbn [fst snd].
  assert (E : getSavedCardLayout
                match s with Unavailable => Unavailable
                           | Holding _ => Holding None end = []).
  { destruct s; reflexivity. }
  split; [|split; [|split]].
  - intros key. rewrite E. reflexivity.
  - rewrite map_map. reflexivity.
  - apply Forall_forall. intros card H. apply in_map_iff in H as (c & <- & _).
    repeat split.
  - intros Hids. unfold initCardInteractions. cbn [fst]. rewrite E.
    apply Forall_forall. intros card H.
    apply in_map_iff in H as (c & <- & H).
    apply in_map_iff in H as (c0 & <- & H).
    rewrite Forall_forall in Hids. specialize (Hids c0 H).
    unfold restore. cbn [lookup id cleared]. rewrite Hids. repeat split.
Qed.

Lemma reset_clears_everything_witness :
  Forall (fun card => transform card = None /\ style_width card = "" /\
                      style_height card = "")
    (fst (initCardInteractions true true
            (fst (resetCardLayout
                    (persistCardState sample_card (Holding None))
                    [sample_card]))
            (snd (resetCardLayout
                    (persistCardState sample_card (Holding None))
                    [sample_card])))).
Proof.
  apply (proj2 (proj2 (proj2
    (reset_clears_everything (persistCardState sample_card (Holding None))
       [sample_card] true)))).
  apply Forall_cons; [reflexivity | apply Forall_nil].
Defined.

(** A card whose id is a name of [Object.prototype] is given a transform
    by every load, also after a reset: [savedLayout[card.id]] finds the
    inherited member. *)
Example inherited_id_is_moved :
  let card :=
    {| id := "constructor"; data_x := None; data_y := None;
       style_width := ""; style_height := ""; transform := None;
       offsetWidth := 10; offsetHeight := 10 |} in
  map transform
    (fst (initCardInteractions true false
            (fst (resetCardLayout (Holding None) [card]))
            (snd (resetCardLayout (Holding None) [card])))) =
  [Some (Fin 0, Fin 0)].
Proof. reflexivity. Qed.



End LayoutFacts.

(** ** The theme *)

Module ThemeFacts.
Import Theme.

(** The theme survives a reload.  After a click on the theme button, with
    a working storage, the mode is the opposite of what it was, the
    stored text names it, and [initThemeToggle] on the next load, whatever
    the fresh page shows, applies that very mode; the icon is the sun
    exactly in dark mode. *)
Theorem theme_survives_reload (p fresh : Page) (item : option string) :
  store p = Holding item ->
  store fresh = store (toggleClick p) ->
  darkMode (toggleClick p) = negb (darkMode p) /\
  store (toggleClick p) =
    Holding (Some (if darkMode p then "light" else "dark")) /\
  exists reloaded,
    initThemeToggle true fresh = Some reloaded /\
    darkMode reloaded = darkMode (toggleClick p) /\
    sunIcon reloaded = darkMode reloaded.
Proof.
  intros Hs Hf. unfold toggleClick in *. cbn [applyTheme store] in *.
  rewrite Hs in *. cbn [darkMode store] in *.
  split; [destruct (darkMode p); reflexivity|]. split; [reflexivity|].
  unfold initThemeToggle. rewrite Hf.
  destruct (darkMode p); eexists; (split; [reflexivity|]); split; reflexivity.
Qed.

Lemma theme_survives_reload_witness :
  let p := {| darkMode := false; sunIcon := false; store := Holding None |} in
  darkMode (toggleClick p) = true /\
  store (toggleClick p) = Holding (Some "dark").
Proof.
  intros p.
  destruct (theme_survives_reload p (toggleClick p) None eq_refl eq_refl)
    as (A & B & _).
  split; [exact A | exact B].
Defined.

(** Two clicks bring the mode back, and after any number of clicks the
    stored text, when the storage works, names the mode shown. *)
Theorem clicks_flip_the_mode (n : nat) (p : Page) :
  darkMode (Nat.iter n toggleClick p) =
    (if Nat.even n then darkMode p else negb (darkMode p)) /\
  (forall item, store p = Holding item -> (0 < n)%nat ->
     store (Nat.iter n toggleClick p) =
       Holding (Some (if darkMode (Nat.iter n toggleClick p)
                      then "dark" else "light"))).
Proof.
  assert (F : forall q, darkMode (toggleClick q) = negb (darkMode q)).
  { intros q. unfold toggleClick. cbn [applyTheme store].
    destruct (store q), (darkMode q); reflexivity. }
  assert (S : forall q item, store q = Holding item ->
            store (toggleClick q) =
              Holding (Some (if darkMode (toggleClick q)
                             then "dark" else "light"))).
  { intros q item H. unfold toggleClick. cbn [applyTheme store].
    rewrite H. destruct (darkMode q); reflexivity. }
  assert (K : forall k item, store p = Holding item ->
            exists item', store (Nat.iter k toggleClick p) = Holding item').
  { induction k as [|k IH]; intros item H; [exists item; exact H|].
    destruct (IH item H) as [item' H']. rewrite Nat.iter_succ.
    eexists. apply (S _ item' H'). }
  split.
  - induction n as [|n IH]; [reflexivity|].
    rewrite Nat.iter_succ, F, IH, Nat.even_succ, <- Nat.negb_even.
    destruct (Nat.even n), (darkMode p); reflexivity.
  - intros item H Hn. destruct n as [|n]; [lia|].
    rewrite Nat.iter_succ. destruct (K n item H) as [item' H'].
    apply (S _ item' H').
Qed.

Lemma clicks_flip_the_mode_witness :
  let p := {| darkMode := false; sunIcon := false; store := Holding None |} in
  store (Nat.iter 3 toggleClick p) = Holding (Some "dark").
Proof.
  intros p.
  exact (proj2 (clicks_flip_the_mode 3 p) None eq_refl ltac:(lia)).
Defined.

(** A stored text other than "dark" (a theme of another spelling, or
    nothing) gives the light mode. *)
Theorem only_dark_is_dark (p : Page) (item : option string) :
  store p = Holding item ->
  item <> Some "dark" ->
  exists loaded,
    initThemeToggle true p = Some loaded /\ darkMode loaded = false.
Proof.
  intros Hs Hi. unfold initThemeToggle. rewrite Hs.
  eexists. split; [reflexivity|]. cbn [applyTheme darkMode].
  destruct item as [[|c s]|]; try reflexivity.
  destruct (String.eqb_spec (String c s) "dark") as [E|E]; [|reflexivity].
  congruence.
Qed.

Lemma only_dark_is_dark_witness :
  exists loaded,
    initThemeToggle true
      {| darkMode := true; sunIcon := true; store := Holding (Some "Dark") |}
    = Some loaded /\ darkMode loaded = false.
Proof.
  apply (only_dark_is_dark
           {| darkMode := true; sunIcon := true;
              store := Holding (Some "Dark") |} (Some "Dark"));
    [reflexivity | discriminate].
Defined.



End ThemeFacts.

(** ** Loading the planning coverage *)

Module PlanningLoadFacts.
Import Charts PlanningLoad.

Section LoadFacts.

Variable Entry : Type.

(** A load that fails, by a rejected fetch or by a payload that is not
    [ok], ends in the empty state whatever was shown: both series are
    emptied and, the chart of the canvas having been destroyed, no chart is
    live on it. *)
Theorem failed_load_empties (reply : Reply Entry) (selected : View)
    (r : Registry) :
  held r ->
  (reply = Rejected \/
   exists monthly_data weekly_data,
     reply = Payload false monthly_data weekly_data) ->
  fst (loadPlanningCoverage reply selected r) = no_data /\
  live_on planningCoverageChart (snd (loadPlanningCoverage reply selected r))
    = [].
Proof.
  intros H [-> | (m & w & ->)]; cbn [loadPlanningCoverage fst snd];
    (split; [reflexivity|]);
    unfold renderPlanningCoverageChart; cbn [trimmed no_data monthly_series];
    unfold slice_last; cbn [List.length Nat.sub skipn];
    apply ChartsFacts.released; exact H.
Qed.


(** The bars of the planning chart are the most recent entries: the tail
    of the series of the view, all of it when it has 12 entries (monthly)
    or 20 (weekly) at most, and its last 12 or 20 otherwise. *)
Theorem trimmed_is_recent_tail (data : PlanningData Entry) (view : View) :
  let series := match view with
                | monthly => monthly_series Entry data
                | weekly => weekly_series Entry data
                end in
  let limit := match view with monthly => 12%nat | weekly => 20%nat end in
  List.length (trimmed data view) = Nat.min limit (List.length series) /\
  exists older, series = (older ++ trimmed data view)%list.
Proof.
  destruct view; cbn zeta; cbn [trimmed]; unfold slice_last; split;
    try (rewrite length_skipn; lia);
    eexists; symmetry; apply firstn_skipn.
Qed.

End LoadFacts.

Lemma failed_load_empties_witness :
  let shown := renderPlanningCoverageChart one_month monthly initial in
  live_on planningCoverageChart shown = [0%nat] /\
  live_on planningCoverageChart
    (snd (loadPlanningCoverage (Entry := nat) Rejected monthly shown)) = [].
Proof.
  intros shown. split; [reflexivity|].
  apply (failed_load_empties nat Rejected monthly shown).
  - intros slot chart [E|[]]. injection E as <- <-. reflexivity.
  - left. reflexivity.
Defined.


End PlanningLoadFacts.

(** ** The request durations card *)

Module DurationsFacts.
Import Durations.

Lemma find_app {A : Type} (f : A -> bool) (l m : list A) :
  find f (l ++ m) = match find f l with
                    | Some a => Some a
                    | None => find f m
                    end.
Proof.
  induction l as [|a l IH]; cbn; [reflexivity|].
  destruct (f a); [reflexivity | exact IH].
Qed.

Lemma get_after_entries (key : string) (entries : list (option Entry))
    (lookup : list (string * value)) :
  get key (fold_left record_entry entries lookup) =
  match find (names key) (rev entries) with
  | Some entry => seconds_of entry
  | None => get key lookup
  end.
Proof.
  revert lookup. induction entries as [|entry rest IH]; intros lookup;
    [reflexivity|].
  cbn [fold_left rev]. rewrite IH, find_app.
  destruct (find (names key) (rev rest)); [reflexivity|].
  cbn [find]. unfold names, record_entry, seconds_of.
  destruct entry as [e|]; [|reflexivity].
  destruct (metric_type e) as [| |n|name]; try reflexivity.
  cbn [get]. destruct (String.eqb (toLowerCase name) key); reflexivity.
Qed.

(** Each of the two durations of the card is that of the last entry of
    its type, the type being compared without regard to case: the text is
    the formatted duration when that entry's average is a number, and the
    dash when it is not or when there is no entry of the type; an argument
    that is not an array gives two dashes. *)
Theorem durations_last_entry_wins (entries : list (option Entry)) :
  let shown (key : string) :=
    match find (names key) (rev entries) with
    | Some entry => formatDurationDisplay (seconds_of entry)
    | None => "-"
    end in
  updateRequestDurationsCard (Some entries) =
    (shown "timeoff", shown "overtime") /\
  updateRequestDurationsCard None = ("-", "-") /\
  updateRequestDurationsCard (Some []) = ("-", "-").
Proof.
  cbn zeta. split; [|split; reflexivity].
  unfold updateRequestDurationsCard. rewrite !get_after_entries.
  destruct (find (names "timeoff") (rev entries)),
           (find (names "overtime") (rev entries)); reflexivity.
Qed.

(** Two entries for the time off, of different case, and an overtime
    entry without a number. *)
Example durations_sample :
  updateRequestDurationsCard
    (Some [ Some {| metric_type := VString "timeoff";
                    avg_duration_seconds := VNumber (Fin 45) |};
            None;
            Some {| metric_type := VString "TimeOff";
                    avg_duration_seconds := VNumber (Fin 3661) |};
            Some {| metric_type := VString "overtime";
                    avg_duration_seconds := VNull |} ])
  = ("1h 1m", "-").
Proof. reflexivity. Qed.

End DurationsFacts.

(** ** Opening the ease editor *)

Module EaseEditorFacts.
Import Ease EaseEditor.

Section OpenFacts.

Variable show : option number -> string.
Variable server : EaseData -> Reply.

Lemma fold_add_rows (data : list Point) (rows : list Row) :
  fold_left (fun rows item => addEaseDataPoint (show (value item)) rows)
    data rows =
  (rows ++ map (fun item => {| period_input := None;
                               value_input := Some (show (value item)) |})
             data)%list.
Proof.
  revert rows. induction data as [|item rest IH]; intros rows; cbn.
  - rewrite app_nil_r. reflexivity.
  - rewrite IH. unfold addEaseDataPoint, push. rewrite <- app_assoc.
    reflexivity.
Qed.

Lemma populate_rows (data : list Point) :
  List.length (populateEaseEditor show data) =
    Nat.max 1 (List.length data) /\
  populateEaseEditor show data <> [] /\
  Forall (fun row => period_input row = None) (populateEaseEditor show data).
Proof.
  unfold populateEaseEditor. destruct data as [|item rest].
  - split; [reflexivity|]. split; [discriminate|].
    repeat constructor.
  - rewrite fold_add_rows. cbn [app]. split; [|split].
    + rewrite length_map. cbn [List.length]. lia.
    + discriminate.
    + apply Forall_forall. intros row H.
      apply in_map_iff in H as (it & <- & _). reflexivity.
Qed.


(** Removing a row removes that row only: the rows before and after it
    stay, in order. *)
Theorem remove_only_that_row (before after : list Row) (row : Row) :
  removeEaseDataPoint (List.length before) (before ++ row :: after)%list =
  (before ++ after)%list.
Proof.
  induction before as [|r rest IH]; cbn; [reflexivity|].
  rewrite IH. reflexivity.
Qed.

End OpenFacts.

(** ** The average on the scale of the chart *)

Lemma round2_in_scale (q : Q) :
  (0 <= q <= 10)%Q -> (0 <= round2 q <= 10)%Q.
Proof.
  intros [L U]. unfold round2.
  apply Qle_bool_iff in L. rewrite L. apply Qle_bool_iff in L.
  rewrite (EaseFacts.Qmake_100 (Qfloor (q * 100 + (1 # 2)))).
  assert (A : 0 <= Qfloor (q * 100 + (1 # 2))).
  { change 0 with (Qfloor 0). apply Qfloor_resp_le. lra. }
  assert (B : Qfloor (q * 100 + (1 # 2)) <= 1000).
  { change 1000 with (Qfloor (1000 + (1 # 2))). apply Qfloor_resp_le. lra. }
  rewrite Zle_Qle in A. rewrite Zle_Qle in B.
  change (inject_Z 0) with 0%Q in A.
  change (inject_Z 1000) with 1000%Q in B.
  split; lra.
Qed.

Lemma sum_in_scale (items : list Point) :
  Forall in_scale items ->
  (0 <= sum_present items
   <= 10 * inject_Z (Z.of_nat (List.length items)))%Q.
Proof.
  induction items as [|entry rest IH]; intros H.
  - unfold sum_present. cbn [fold_right List.length].
    change (inject_Z (Z.of_nat 0)) with 0%Q. split; lra.
  - inversion H as [|? ? He Hrest]; subst. specialize (IH Hrest).
    unfold sum_present in *. cbn [fold_right List.length].
    rewrite Nat2Z.inj_succ. unfold Z.succ. rewrite inject_Z_plus.
    change (inject_Z 1) with 1%Q.
    assert (P : (0 <= present_value entry <= 10)%Q).
    { unfold in_scale in He. unfold present_value.
      destruct (value entry) as [[| | |q]|]; try contradiction;
        [exact He | split; lra]. }
    destruct IH, P. split; lra.
Qed.

Lemma in_scale_finite (items : list Point) :
  Forall in_scale items -> Forall finite_or_absent items.
Proof.
  apply Forall_impl. intros entry. unfold in_scale, finite_or_absent.
  destruct (value entry) as [[| | |q]|]; tauto.
Qed.




End EaseEditorFacts.
